(** * The Cobbler provisioning client (cobbler.py)

    A shallow embedding of [CobblerAction]: the catalog readers, the
    modify workflows and the create workflow [add_system], over an
    arbitrary remote XML-RPC service.

    Python values are a first-order data type, Python exceptions are an
    explicit result, and every remote call and every line written to
    standard output is recorded, in order, in a trace.  The bodies of the
    methods are modelled; parameter annotations are not. *)

From Stdlib Require Import List String Ascii ZArith Bool Lia.
Import ListNotations.
Local Open Scope string_scope.
Local Open Scope list_scope.

(** ** Python values

    The values [json.loads] and the XML-RPC unmarshaller produce (None,
    booleans, integers, strings, lists and dictionaries), and the tuples
    [dict.items()] yields.  Floating-point numbers are left out.  A
    dictionary keeps its entries in insertion order. *)

#[local] Set Warnings "-register-all".
Inductive pyval : Type :=
| PNone
| PBool (b : bool)
| PInt (n : Z)
| PStr (s : string)
| PList (xs : list pyval)
| PTuple (xs : list pyval)
| PDict (kvs : list (pyval * pyval)).

(** The exceptions the client can meet.  [Fault] and [ProtocolError] come
    from [xmlrpc.client], [OSError] from the transport; [OtherException]
    stands for any other subclass of [Exception], by its class name. *)
Inductive exn : Type :=
| TypeError
| KeyError
| AttributeError
| JSONDecodeError
| Fault (code : Z) (msg : string)
| ProtocolError (code : Z)
| OSError (msg : string)
| OtherException (class_name : string).

(** What evaluating an expression or running a statement gives: a value,
    or a raised exception. *)
Inductive outcome (A : Type) : Type :=
| Return (a : A)
| Raise (e : exn).
Arguments Return {A} a.
Arguments Raise {A} e.

(** ** Python operators on values *)

(** [a == b].  A boolean equals the integer 0 or 1 it stands for; lists and
    tuples are compared element by element; dictionaries entry by entry,
    whatever the order. *)
Fixpoint py_eq (a b : pyval) {struct a} : bool :=
  match a, b with
  | PNone, PNone => true
  | PBool x, PBool y => Bool.eqb x y
  | PBool x, PInt n => Z.eqb (if x then 1 else 0) n
  | PInt n, PBool x => Z.eqb n (if x then 1 else 0)
  | PInt m, PInt n => Z.eqb m n
  | PStr s, PStr t => String.eqb s t
  | PList xs, PList ys =>
      (fix go (xs ys : list pyval) {struct xs} : bool :=
         match xs, ys with
         | [], [] => true
         | x :: xs', y :: ys' => py_eq x y && go xs' ys'
         | _, _ => false
         end) xs ys
  | PTuple xs, PTuple ys =>
      (fix go (xs ys : list pyval) {struct xs} : bool :=
         match xs, ys with
         | [], [] => true
         | x :: xs', y :: ys' => py_eq x y && go xs' ys'
         | _, _ => false
         end) xs ys
  | PDict kvs, PDict kvs' =>
      Nat.eqb (List.length kvs) (List.length kvs') &&
      (fix each (kvs : list (pyval * pyval)) {struct kvs} : bool :=
         match kvs with
         | [] => true
         | (k, v) :: rest =>
             (fix look (kvs' : list (pyval * pyval)) : bool :=
                match kvs' with
                | [] => false
                | (k', v') :: rest' =>
                    if py_eq k k' then py_eq v v' else look rest'
                end) kvs'
             && each rest
         end) kvs
  | _, _ => false
  end.

(** The entry of a dictionary under a key, first match. *)
Fixpoint dict_get (kvs : list (pyval * pyval)) (k : pyval) : option pyval :=
  match kvs with
  | [] => None
  | (k', v) :: rest => if py_eq k' k then Some v else dict_get rest k
  end.

(** [x[key]] for a string [key]: only a dictionary can be indexed by a
    string; sequences want integers and the other values are not
    subscriptable. *)
Definition py_getitem (x : pyval) (key : string) : outcome pyval :=
  match x with
  | PDict kvs =>
      match dict_get kvs (PStr key) with
      | Some v => Return v
      | None => Raise KeyError
      end
  | _ => Raise TypeError
  end.

(** [t] occurs in [s] as a substring. *)
Fixpoint substring_of (t s : string) : bool :=
  String.prefix t s ||
  match s with
  | EmptyString => false
  | String _ s' => substring_of t s'
  end.

(** [key in x] for a string [key]: a key of a dictionary, an element of a
    list or tuple, a substring of a string; the other values are not
    iterable. *)
Definition py_contains (key : string) (x : pyval) : outcome bool :=
  match x with
  | PDict kvs => Return (existsb (fun kv => py_eq (fst kv) (PStr key)) kvs)
  | PList xs | PTuple xs => Return (existsb (fun v => py_eq v (PStr key)) xs)
  | PStr s => Return (substring_of key s)
  | _ => Raise TypeError
  end.

(** [v in xs] for a list [xs] the client has built itself. *)
Definition py_in (v : pyval) (xs : list pyval) : bool :=
  existsb (fun x => py_eq x v) xs.

(** The items a [for] loop or a comprehension draws from [x]. *)
Definition py_iter (x : pyval) : outcome (list pyval) :=
  match x with
  | PList xs | PTuple xs => Return xs
  | PDict kvs => Return (map fst kvs)
  | PStr s => Return (map (fun c => PStr (String c EmptyString)) (list_ascii_of_string s))
  | _ => Raise TypeError
  end.

(** [x.items()]: the (key, value) tuples of a dictionary; no other value
    has the attribute. *)
Definition py_items (x : pyval) : outcome (list pyval) :=
  match x with
  | PDict kvs => Return (map (fun kv => PTuple [fst kv; snd kv]) kvs)
  | _ => Raise AttributeError
  end.

(** A value that can be a dictionary key. *)
Fixpoint hashable (v : pyval) : bool :=
  match v with
  | PList _ | PDict _ => false
  | PTuple xs => (fix all (xs : list pyval) : bool :=
                    match xs with [] => true | x :: r => hashable x && all r end) xs
  | _ => true
  end.

Fixpoint dict_set (kvs : list (pyval * pyval)) (k v : pyval) : list (pyval * pyval) :=
  match kvs with
  | [] => [(k, v)]
  | (k', v') :: rest =>
      if py_eq k' k then (k', v) :: rest else (k', v') :: dict_set rest k v
  end.

(** [d[k] = v] on a dictionary [d]. *)
Definition py_setitem (d : list (pyval * pyval)) (k v : pyval)
  : outcome (list (pyval * pyval)) :=
  if hashable k then Return (dict_set d k v) else Raise TypeError.

(** [s + x] for a string [s]. *)
Definition py_str_add (s : string) (x : pyval) : outcome string :=
  match x with
  | PStr t => Return (s ++ t)%string
  | _ => Raise TypeError
  end.

(** Evaluate [f] on each item in turn, as a list comprehension does; the
    first exception ends the evaluation. *)
Fixpoint comprehension {A B : Type} (f : A -> outcome B) (xs : list A)
  : outcome (list B) :=
  match xs with
  | [] => Return []
  | x :: rest =>
      match f x with
      | Raise e => Raise e
      | Return y =>
          match comprehension f rest with
          | Raise e => Raise e
          | Return ys => Return (y :: ys)
          end
      end
  end.

(** ** The remote interface *)

(** The methods of the XML-RPC endpoint the client calls, with their
    arguments. *)
Module Rpc.
Inductive call : Type :=
| get_profiles
| get_systems
| get_distros
| new_system (token : pyval)
| get_system_handle (hostname token : pyval)
| modify_system (handle : pyval) (field : string) (value token : pyval)
| save_system (handle token : pyval)
| remove_system (name token : pyval)
| sync (token : pyval).
End Rpc.

(** What an observer of the client sees: the remote calls it issues and the
    lines it prints. *)
Inductive event : Type :=
| Called (c : Rpc.call)
| Printed (line : string).

Definition is_call (ev : event) : bool :=
  match ev with Called _ => true | Printed _ => false end.

Definition is_remove (ev : event) : bool :=
  match ev with Called (Rpc.remove_system _ _) => true | _ => false end.

Definition is_fetch_systems (ev : event) : bool :=
  match ev with Called Rpc.get_systems => true | _ => false end.

(** The remote calls of a trace, in order. *)
Definition calls (tr : list event) : list event := filter is_call tr.

(** ** The client monad

    A computation runs against the state [W] of the remote service; it
    ends with a value or an exception, the remote state it leaves, and the
    events it produced, oldest first. *)

Definition M (W A : Type) : Type := W -> outcome A * W * list event.

Definition ret {W A : Type} (a : A) : M W A := fun w => (Return a, w, []).


Definition bind {W A B : Type} (m : M W A) (f : A -> M W B) : M W B :=
  fun w =>
    match m w with
    | (Return a, w1, t1) =>
        match f a w1 with
        | (r, w2, t2) => (r, w2, t1 ++ t2)
        end
    | (Raise e, w1, t1) => (Raise e, w1, t1)
    end.

(** [try: m except Exception as e: h e]. *)
Definition try_except {W A : Type} (m : M W A) (h : exn -> M W A) : M W A :=
  fun w =>
    match m w with
    | (Return a, w1, t1) => (Return a, w1, t1)
    | (Raise e, w1, t1) =>
        match h e w1 with
        | (r, w2, t2) => (r, w2, t1 ++ t2)
        end
    end.

(** A pure evaluation, inside a computation. *)
Definition lift {W A : Type} (o : outcome A) : M W A := fun w => (o, w, []).

Definition print {W : Type} (line : string) : M W unit :=
  fun w => (Return tt, w, [Printed line]).

Declare Scope client_scope.
Delimit Scope client_scope with client.
Notation "x <- m ;; k" := (bind m (fun x => k))
  (at level 61, m at next level, right associativity) : client_scope.
Notation "m ;;; k" := (bind m (fun _ => k))
  (at level 61, right associativity) : client_scope.
Local Open Scope client_scope.

(** [for x in xs: body], where [body] may leave the enclosing function with
    [return v] ([Some v]) or fall through to the next item ([None]). *)
Fixpoint for_in {W A R : Type} (xs : list A) (body : A -> M W (option R))
  : M W (option R) :=
  match xs with
  | [] => ret None
  | x :: rest =>
      r <- body x ;;
      match r with
      | Some v => ret (Some v)
      | None => for_in rest body
      end
  end.

(** The result, the final remote state and the trace of a run. *)
Definition result {W A : Type} (run : outcome A * W * list event) : outcome A :=
  fst (fst run).
Definition final {W A : Type} (run : outcome A * W * list event) : W :=
  snd (fst run).
Definition trace {W A : Type} (run : outcome A * W * list event) : list event :=
  snd run.

(** ** CobblerAction *)

(** The fields [__init__] sets; [token] is what [login] answered. *)
Record CobblerAction : Type := {
  server_url : pyval;
  user : pyval;
  password : pyval;
  token : pyval
}.

Section Client.

(** The proxy and the service behind it: any state space, and any answer
    to a call (a value, a fault, a failure of the transport or of the
    marshalling of the arguments), with any change of state. *)
Context {W : Type}.
Variable respond : Rpc.call -> W -> outcome pyval * W.

(** [json.loads]. *)
Variable json_loads : string -> outcome pyval.

Variable self : CobblerAction.

(** [self.cobbler.<method>(...)]. *)
Definition rpc (c : Rpc.call) : M W pyval :=
  fun w => match respond c w with (r, w1) => (r, w1, [Called c]) end.

Definition names_of (collection : pyval) : outcome (list pyval) :=
  match py_iter collection with
  | Raise e => Raise e
  | Return items => comprehension (fun item => py_getitem item "name") items
  end.

Definition profile_names : M W (list pyval) :=
  collection <- rpc Rpc.get_profiles ;;
  lift (names_of collection).

Definition system_names : M W (list pyval) :=
  collection <- rpc Rpc.get_systems ;;
  lift (names_of collection).

Definition distro_names : M W (list pyval) :=
  collection <- rpc Rpc.get_distros ;;
  lift (names_of collection).

(** The body of the loop of [purge_systems]. *)
Definition purge_turn (name : pyval) : M W (option pyval) :=
  rpc (Rpc.remove_system name (token self)) ;;;
  ret None.

Definition purge_systems : M W pyval :=
  names <- system_names ;;
  for_in names purge_turn ;;;
  ret PNone.

(** The loop shared by [get_system], [get_distro] and [get_profile]:
    return the first record whose name equals [name]; falling off the
    end of the function returns None. *)
Definition name_turn (name record : pyval) : M W (option pyval) :=
  n <- lift (py_getitem record "name") ;;
  if py_eq n name then ret (Some record) else ret None.

Definition first_named (fetch : Rpc.call) (name : pyval) : M W pyval :=
  collection <- rpc fetch ;;
  records <- lift (py_iter collection) ;;
  found <- for_in records (name_turn name) ;;
  match found with
  | Some record => ret record
  | None => ret PNone
  end.

Definition get_system (hostname : pyval) : M W pyval :=
  first_named Rpc.get_systems hostname.

Definition get_distro (name : pyval) : M W pyval :=
  first_named Rpc.get_distros name.

Definition get_profile (name : pyval) : M W pyval :=
  first_named Rpc.get_profiles name.

(** The body of the loop of [get_default_profile_name]. *)
Definition profile_turn (arch profile : pyval) : M W (option pyval) :=
  distro_name <- lift (py_getitem profile "distro") ;;
  distro <- get_distro distro_name ;;
  distro_arch <- lift (py_getitem distro "arch") ;;
  if py_eq distro_arch arch
  then n <- lift (py_getitem profile "name") ;; ret (Some n)
  else ret None.

Definition get_default_profile_name (arch : pyval) : M W pyval :=
  collection <- rpc Rpc.get_profiles ;;
  profiles <- lift (py_iter collection) ;;
  found <- for_in profiles (profile_turn arch) ;;
  match found with
  | Some n => ret n
  | None => ret (PStr "no-profile")
  end.

Definition system_exists (hostname : pyval) : M W bool :=
  names <- system_names ;;
  ret (py_in hostname names).

Definition profile_exists (profile_name : pyval) : M W bool :=
  names <- profile_names ;;
  ret (py_in profile_name names).

Definition get_system_handle (hostname : pyval) : M W pyval :=
  rpc (Rpc.get_system_handle hostname (token self)).


(** The string [set_system_args] accumulates over its loop. *)
Definition arg_str_of (args : list (string * string)) : string :=
  fold_left
    (fun arg_str arg =>
       ((((arg_str ++ " ") ++ fst arg) ++ "=") ++ snd arg)%string)
    args "".

Definition set_system_args (hostname : pyval) (args : list (string * string))
  : M W pyval :=
  let arg_str := arg_str_of args in
  print "about to get sys_id" ;;;
  sys_id <- get_system_handle hostname ;;
  print "about to modify system" ;;;
  print ("Sets system args to: " ++ arg_str)%string ;;;
  rpc (Rpc.modify_system sys_id "kernel_options" (PStr arg_str) (token self)) ;;;
  print "about to save system" ;;;
  rpc (Rpc.save_system sys_id (token self)) ;;;
  ret PNone.


Definition sync : M W pyval :=
  rpc (Rpc.sync (token self)) ;;;
  ret PNone.

(** The loop of [add_system] over [host_ports.items()].  The right-hand
    side of the assignment is evaluated first, then the subscript of the
    target, then the entry is stored. *)
Fixpoint interfaces_loop (items : list pyval) (ifaces : list (pyval * pyval))
  : M W (list (pyval * pyval)) :=
  match items with
  | [] => ret ifaces
  | iface :: rest =>
      mac <- lift (py_getitem iface "mac") ;;
      name <- lift (py_getitem iface "name") ;;
      ifaces' <- lift (py_setitem ifaces name (PDict [(PStr "mac_address", mac)])) ;;
      interfaces_loop rest ifaces'
  end.

(** The body of the [try] block of [add_system].  Both [return None]
    statements give [None]. *)
Definition add_system_try (system_def : string) : M W (option exn) :=
  system_def <- lift (json_loads system_def) ;;
  sys_id <- rpc (Rpc.new_system (token self)) ;;
  has_arch <- lift (py_contains "arch" system_def) ;;
  has_both <- (if has_arch : bool
               then lift (py_contains "host_ports" system_def)
               else ret false) ;;
  if negb has_both then
    server_name <- lift (py_getitem system_def "server_name") ;;
    warning <- lift (py_str_add "WARNING: Host schema for " server_name) ;;
    print (warning ++ " is out of date! Reimport this host.")%string ;;;
    ret None
  else
    arch <- lift (py_getitem system_def "arch") ;;
    server_name <- lift (py_getitem system_def "server_name") ;;
    rpc (Rpc.modify_system sys_id "name" server_name (token self)) ;;;
    server_name <- lift (py_getitem system_def "server_name") ;;
    rpc (Rpc.modify_system sys_id "hostname" server_name (token self)) ;;;
    profile <- get_default_profile_name arch ;;
    rpc (Rpc.modify_system sys_id "profile" profile (token self)) ;;;
    host_ports <- lift (py_getitem system_def "host_ports") ;;
    items <- lift (py_items host_ports) ;;
    ifaces <- interfaces_loop items [] ;;
    rpc (Rpc.modify_system sys_id "interfaces" (PDict ifaces) (token self)) ;;;
    ipmi_fqdn <- lift (py_getitem system_def "ipmi_fqdn") ;;
    rpc (Rpc.modify_system sys_id "power_address" ipmi_fqdn (token self)) ;;;
    ipmi_user <- lift (py_getitem system_def "ipmi_user") ;;
    rpc (Rpc.modify_system sys_id "power_user" ipmi_user (token self)) ;;;
    ipmi_pass <- lift (py_getitem system_def "ipmi_pass") ;;
    rpc (Rpc.modify_system sys_id "power_pass" ipmi_pass (token self)) ;;;
    rpc (Rpc.modify_system sys_id "power_mode" (PStr "ipmitool") (token self)) ;;;
    rpc (Rpc.modify_system sys_id "netboot_enabled" (PBool true) (token self)) ;;;
    rpc (Rpc.save_system sys_id (token self)) ;;;
    ret None.

(** [add_system] returns None, or the exception its [try] block raised. *)
Definition add_system (system_def : string) : M W (option exn) :=
  try_except (add_system_try system_def) (fun e => ret (Some e)).


End Client.

(** The record is named [name]. *)
Definition named (name record : pyval) : bool :=
  match py_getitem record "name" with
  | Return n => py_eq n name
  | Raise _ => false
  end.

(** ** A reference remote service *)

(** Modelled from the spec: the provisioning service behind the XML-RPC
    endpoint, which is not part of the client.  It keeps the three
    collections, and follows the two-phase protocol of the data model: a
    handle stages field mutations, and only [save_system] makes them
    visible in the system collection.  A call with a token other than the
    session's is answered with a fault. *)
Module Remote.

Record state : Type := {
  systems : list pyval;
  profiles : list pyval;
  distros : list pyval;
  handles : list (list (pyval * pyval));
  session : pyval
}.

Definition with_systems (s : state) (l : list pyval) : state :=
  {| systems := l; profiles := profiles s; distros := distros s;
     handles := handles s; session := session s |}.

Definition with_handles (s : state) (l : list (list (pyval * pyval))) : state :=
  {| systems := systems s; profiles := profiles s; distros := distros s;
     handles := l; session := session s |}.

Definition staged (s : state) (handle : pyval) : option (list (pyval * pyval)) :=
  match handle with
  | PInt n => if (0 <=? n)%Z then nth_error (handles s) (Z.to_nat n) else None
  | _ => None
  end.

Fixpoint replace_nth {A : Type} (l : list A) (i : nat) (a : A) : list A :=
  match l, i with
  | [], _ => []
  | _ :: rest, O => a :: rest
  | x :: rest, S j => x :: replace_nth rest j a
  end.

Definition bad_token : exn := Fault 1 "invalid token".
Definition no_object : exn := Fault 2 "unknown object".

Definition authorised (s : state) (c : Rpc.call) : bool :=
  match c with
  | Rpc.get_profiles | Rpc.get_systems | Rpc.get_distros => true
  | Rpc.new_system t
  | Rpc.get_system_handle _ t
  | Rpc.modify_system _ _ _ t
  | Rpc.save_system _ t
  | Rpc.remove_system _ t
  | Rpc.sync t => py_eq t (session s)
  end.

Definition serve (c : Rpc.call) (s : state) : outcome pyval * state :=
  match c with
  | Rpc.get_profiles => (Return (PList (profiles s)), s)
  | Rpc.get_systems => (Return (PList (systems s)), s)
  | Rpc.get_distros => (Return (PList (distros s)), s)
  | Rpc.new_system _ =>
      (Return (PInt (Z.of_nat (List.length (handles s)))),
       with_handles s (handles s ++ [[]]))
  | Rpc.get_system_handle hostname _ =>
      match find (named hostname) (systems s) with
      | Some (PDict fields) =>
          (Return (PInt (Z.of_nat (List.length (handles s)))),
           with_handles s (handles s ++ [fields]))
      | _ => (Raise no_object, s)
      end
  | Rpc.modify_system handle field value _ =>
      match handle, staged s handle with
      | PInt n, Some fields =>
          (Return (PBool true),
           with_handles s
             (replace_nth (handles s) (Z.to_nat n)
                (dict_set fields (PStr field) value)))
      | _, _ => (Raise no_object, s)
      end
  | Rpc.save_system handle _ =>
      match staged s handle with
      | Some fields =>
          match dict_get fields (PStr "name") with
          | Some name =>
              (Return (PBool true),
               with_systems s
                 (filter (fun r => negb (named name r)) (systems s)
                  ++ [PDict fields]))
          | None => (Raise no_object, s)
          end
      | None => (Raise no_object, s)
      end
  | Rpc.remove_system name _ =>
      (Return (PBool true),
       with_systems s (filter (fun r => negb (named name r)) (systems s)))
  | Rpc.sync _ => (Return (PBool true), s)
  end.

Definition respond (c : Rpc.call) (s : state) : outcome pyval * state :=
  if authorised s c then serve c s else (Raise bad_token, s).

End Remote.

(** ** Sample data *)

Module Sample.

Definition str_dict (kvs : list (string * pyval)) : pyval :=
  PDict (map (fun kv => (PStr (fst kv), snd kv)) kvs).

Definition client : CobblerAction :=
  {| server_url := PStr "http://cobbler/cobbler_api";
     user := PStr "laas";
     password := PStr "secret";
     token := PStr "tok" |}.

(** Distros [x86] and [arm], profiles [p1] on [x86] and [p2] on [arm]. *)
Definition lab : Remote.state :=
  {| Remote.systems := [];
     Remote.profiles :=
       [str_dict [("name", PStr "p1"); ("distro", PStr "x86")];
        str_dict [("name", PStr "p2"); ("distro", PStr "arm")]];
     Remote.distros :=
       [str_dict [("name", PStr "x86"); ("arch", PStr "x86_64")];
        str_dict [("name", PStr "arm"); ("arch", PStr "aarch64")]];
     Remote.handles := [];
     Remote.session := PStr "tok" |}.

(** The same lab with the hosts [h1] and [h2] registered. *)
Definition lab_with_hosts : Remote.state :=
  Remote.with_systems lab
    [str_dict [("name", PStr "h1"); ("profile", PStr "p1")];
     str_dict [("name", PStr "h2"); ("profile", PStr "p2")]].

(** A lab whose profile [p0] names a distro that does not exist. *)
Definition lab_with_dangling_profile : Remote.state :=
  {| Remote.systems := [];
     Remote.profiles :=
       str_dict [("name", PStr "p0"); ("distro", PStr "gone")]
       :: Remote.profiles lab;
     Remote.distros := Remote.distros lab;
     Remote.handles := [];
     Remote.session := PStr "tok" |}.

(** The System definition of host [h1]. *)
Definition h1_def : pyval :=
  str_dict
    [("server_name", PStr "h1");
     ("arch", PStr "x86_64");
     ("host_ports", str_dict [("eth0", PStr "AA:BB:CC:DD:EE:FF")]);
     ("ipmi_fqdn", PStr "bmc1");
     ("ipmi_user", PStr "u");
     ("ipmi_pass", PStr "p")].

(** [h1] in the schema that has no [host_ports]. *)
Definition h1_legacy_def : pyval :=
  str_dict
    [("server_name", PStr "h1");
     ("arch", PStr "x86_64");
     ("ipmi_fqdn", PStr "bmc1");
     ("ipmi_user", PStr "u");
     ("ipmi_pass", PStr "p")].

(** [h1] with no port at all. *)
Definition h1_portless_def : pyval :=
  str_dict
    [("server_name", PStr "h1");
     ("arch", PStr "x86_64");
     ("host_ports", PDict []);
     ("ipmi_fqdn", PStr "bmc1");
     ("ipmi_user", PStr "u");
     ("ipmi_pass", PStr "p")].

(** A decoder that knows three documents by name and rejects every
    other text. *)
Definition loads (text : string) : outcome pyval :=
  if String.eqb text "h1.json" then Return h1_def
  else if String.eqb text "h1-legacy.json" then Return h1_legacy_def
  else if String.eqb text "h1-portless.json" then Return h1_portless_def
  else Raise JSONDecodeError.

End Sample.

(** ** Vocabulary of the statements *)

(** The record has a [name] field. *)
Definition has_name (record : pyval) : bool :=
  match py_getitem record "name" with
  | Return _ => true
  | Raise _ => false
  end.

(** Every record of the collection has a name, and none is named [name]. *)
Definition no_record_named (name : pyval) (records : list pyval) : bool :=
  forallb
    (fun record =>
       match py_getitem record "name" with
       | Return n => negb (py_eq n name)
       | Raise _ => false
       end)
    records.

(** The three remote collections, the call that fetches each and the client
    lookup that scans it. *)
Inductive collection : Type := Systems | Profiles | Distros.

Definition fetch_of (k : collection) : Rpc.call :=
  match k with
  | Systems => Rpc.get_systems
  | Profiles => Rpc.get_profiles
  | Distros => Rpc.get_distros
  end.

Definition lookup {W : Type} (respond : Rpc.call -> W -> outcome pyval * W)
  (k : collection) (name : pyval) : M W pyval :=
  match k with
  | Systems => get_system respond name
  | Profiles => get_profile respond name
  | Distros => get_distro respond name
  end.

(** The architecture of the distro a profile refers to, in a catalog with
    the distros [distros]: the first distro bearing the name the profile
    gives. *)
Definition distro_arch (distros : list pyval) (profile : pyval) : option pyval :=
  match py_getitem profile "distro" with
  | Return distro_name =>
      match find (named distro_name) distros with
      | Some distro =>
          match py_getitem distro "arch" with
          | Return a => Some a
          | Raise _ => None
          end
      | None => None
      end
  | Raise _ => None
  end.

(** The profile's distro has architecture [arch]. *)
Definition serves (distros : list pyval) (arch profile : pyval) : bool :=
  match distro_arch distros profile with
  | Some a => py_eq a arch
  | None => false
  end.

(** [resolve_default_profile] as the specification words it: the name of
    the first profile, in catalog order, whose distro's architecture is
    [arch], and the sentinel when there is none. *)
Definition resolve_default_profile (profiles distros : list pyval) (arch : pyval)
  : pyval :=
  match find (serves distros arch) profiles with
  | Some profile =>
      match py_getitem profile "name" with
      | Return n => n
      | Raise _ => PNone
      end
  | None => PStr "no-profile"
  end.

(** Referential integrity of a catalog: every record has a name, and every
    profile names a distro of the catalog that has an architecture. *)
Definition resolves (distros : list pyval) (profile : pyval) : bool :=
  has_name profile &&
  match distro_arch distros profile with
  | Some _ => true
  | None => false
  end.

Definition referential_integrity (profiles distros : list pyval) : bool :=
  forallb has_name distros && forallb (resolves distros) profiles.

(** The profile names a distro that the catalog does not have. *)
Definition dangling (distros : list pyval) (profile : pyval) : bool :=
  match py_getitem profile "distro" with
  | Return distro_name => no_record_named distro_name distros
  | Raise _ => false
  end.

(** The scan resolves the profile's distro and moves on: the architecture
    is another one. *)
Definition passed_over (distros : list pyval) (arch profile : pyval) : bool :=
  match distro_arch distros profile with
  | Some a => negb (py_eq a arch)
  | None => false
  end.

(** One [" name=value"] segment, and the segments of a list of pairs laid
    end to end. *)
Definition segment (arg : string * string) : string :=
  (" " ++ fst arg ++ "=" ++ snd arg)%string.

Definition segments (args : list (string * string)) : string :=
  fold_right (fun arg rest => (segment arg ++ rest)%string) ""%string args.

(** The call that removes the system [name]. *)
Definition removal (self : CobblerAction) (name : pyval) : event :=
  Called (Rpc.remove_system name (token self)).

(** The payload lacks [arch] or [host_ports]. *)
Definition missing_required (kvs : list (pyval * pyval)) : bool :=
  match dict_get kvs (PStr "arch"), dict_get kvs (PStr "host_ports") with
  | Some _, Some _ => false
  | _, _ => true
  end.

(** The warning [add_system] prints for a host. *)
Definition schema_warning (host : string) : string :=
  ("WARNING: Host schema for " ++ host ++ " is out of date! Reimport this host.")%string.

Definition is_save (ev : event) : bool :=
  match ev with Called (Rpc.save_system _ _) => true | _ => false end.

Definition is_modify (ev : event) : bool :=
  match ev with Called (Rpc.modify_system _ _ _ _) => true | _ => false end.

(** The calls that only read a collection. *)
Definition is_read (ev : event) : bool :=
  match ev with
  | Called Rpc.get_profiles | Called Rpc.get_systems | Called Rpc.get_distros => true
  | _ => false
  end.

(** The name list of each collection. *)
Definition list_names {W : Type} (respond : Rpc.call -> W -> outcome pyval * W)
  (k : collection) : M W (list pyval) :=
  match k with
  | Systems => system_names respond
  | Profiles => profile_names respond
  | Distros => distro_names respond
  end.

(** The call that sets [field] to [value] through [handle], and the call
    that saves [handle]. *)
Definition modification (self : CobblerAction) (handle : pyval) (field : string)
  (value : pyval) : event :=
  Called (Rpc.modify_system handle field value (token self)).

Definition saving (self : CobblerAction) (handle : pyval) : event :=
  Called (Rpc.save_system handle (token self)).




(** The run ends with an exception and has called [save_system] at no
    point. *)
Definition fails_unsaved {W A : Type} (run : outcome A * W * list event) : Prop :=
  filter is_save (trace run) = [] /\ exists e, result run = Raise e.

(** The remote answers each of the calls, made in this order from the
    state [w], with a value; the state it is left in. *)
Fixpoint answered {W : Type} (respond : Rpc.call -> W -> outcome pyval * W)
  (cs : list Rpc.call) (w : W) : option W :=
  match cs with
  | [] => Some w
  | c :: rest =>
      match respond c w with
      | (Return _, w1) => answered respond rest w1
      | (Raise _, _) => None
      end
  end.

(** The nine fields [add_system] stages for a host without ports, in the
    order it stages them. *)
Definition staged_fields (host profile fqdn usr pass : pyval)
  : list (string * pyval) :=
  [("name", host); ("hostname", host); ("profile", profile);
   ("interfaces", PDict []); ("power_address", fqdn); ("power_user", usr);
   ("power_pass", pass); ("power_mode", PStr "ipmitool");
   ("netboot_enabled", PBool true)].

(** * Properties *)

(** ** Runs of the basic computations *)

Section Runs.

Context {W : Type}.
Variable respond : Rpc.call -> W -> outcome pyval * W.

Lemma rpc_run (c : Rpc.call) (w w1 : W) (r : outcome pyval) :
  respond c w = (r, w1) ->
  rpc respond c w = (r, w1, [Called c]).
Proof. intros H. unfold rpc. rewrite H. reflexivity. Qed.

Lemma bind_return {A B : Type} (m : M W A) (f : A -> M W B) w a w1 t1 :
  m w = (Return a, w1, t1) ->
  bind m f w = (fst (fst (f a w1)), snd (fst (f a w1)), t1 ++ snd (f a w1)).
Proof.
  intros H. unfold bind. rewrite H.
  destruct (f a w1) as [[r w2] t2]. reflexivity.
Qed.

Lemma bind_raise {A B : Type} (m : M W A) (f : A -> M W B) w e w1 t1 :
  m w = (Raise e, w1, t1) ->
  bind m f w = (Raise e, w1, t1).
Proof. intros H. unfold bind. rewrite H. reflexivity. Qed.

Lemma for_in_next {A R : Type} (body : A -> M W (option R)) x rest w w1 t1 :
  body x w = (Return None, w1, t1) ->
  for_in (x :: rest) body w
  = (fst (fst (for_in rest body w1)), snd (fst (for_in rest body w1)),
     t1 ++ snd (for_in rest body w1)).
Proof. intros H. simpl. rewrite (bind_return _ _ _ _ _ _ H). reflexivity. Qed.

Lemma for_in_return {A R : Type} (body : A -> M W (option R)) x rest w w1 t1 v :
  body x w = (Return (Some v), w1, t1) ->
  for_in (x :: rest) body w = (Return (Some v), w1, t1 ++ []).
Proof. intros H. simpl. rewrite (bind_return _ _ _ _ _ _ H). reflexivity. Qed.

Lemma for_in_raise {A R : Type} (body : A -> M W (option R)) x rest w w1 t1 e :
  body x w = (Raise e, w1, t1) ->
  for_in (x :: rest) body w = (Raise e, w1, t1).
Proof. intros H. simpl. apply bind_raise. exact H. Qed.

Lemma name_turn_run (name record : pyval) (w : W) :
  name_turn name record w
  = (match py_getitem record "name" with
     | Return n => Return (if py_eq n name then Some record else None)
     | Raise e => Raise e
     end, w, []).
Proof.
  unfold name_turn, bind, lift.
  destruct (py_getitem record "name") as [n | e]; [| reflexivity].
  destruct (py_eq n name); reflexivity.
Qed.

(** A name list is fetched with one call, whatever the answer. *)
Lemma system_names_run (w : W) :
  system_names respond w =
  (match fst (respond Rpc.get_systems w) with
   | Return collection => names_of collection
   | Raise e => Raise e
   end,
   snd (respond Rpc.get_systems w),
   [Called Rpc.get_systems]).
Proof.
  unfold system_names, bind, rpc, lift.
  destruct (respond Rpc.get_systems w) as [[collection | e] w1]; reflexivity.
Qed.

(** The scan of [first_named] over records none of which bears the
    name. *)
Lemma scan_without_match (name : pyval) (records : list pyval) (w : W) :
  no_record_named name records = true ->
  for_in records (name_turn name) w
  = (Return None, w, []).
Proof.
  induction records as [| record rest IH]; intros Habsent.
  - reflexivity.
  - simpl in Habsent. apply andb_prop in Habsent as [Hhead Hrest].
    destruct (py_getitem record "name") as [n | e] eqn:En; [| discriminate].
    apply negb_true_iff in Hhead.
    erewrite for_in_next
      by (rewrite name_turn_run, En, Hhead; reflexivity).
    rewrite (IH Hrest). reflexivity.
Qed.

Lemma first_named_absent (fetch : Rpc.call) (name : pyval)
      (records : list pyval) (w w1 : W) :
  respond fetch w = (Return (PList records), w1) ->
  no_record_named name records = true ->
  first_named respond fetch name w = (Return PNone, w1, [Called fetch]).
Proof.
  intros Hfetch Habsent. unfold first_named.
  rewrite (bind_return _ _ _ _ _ _ (rpc_run _ _ _ _ Hfetch)).
  unfold bind, lift. simpl.
  rewrite (scan_without_match _ _ _ Habsent). reflexivity.
Qed.

Lemma purge_turn_run (self : CobblerAction) (name v : pyval) (w w1 : W) :
  respond (Rpc.remove_system name (token self)) w = (Return v, w1) ->
  purge_turn respond self name w = (Return None, w1, [removal self name]).
Proof.
  intros Hcall. unfold purge_turn.
  rewrite (bind_return _ _ _ _ _ _ (rpc_run _ _ _ _ Hcall)). reflexivity.
Qed.

(** The loop of [purge_systems], when the remote answers every removal
    in the states [ok] that the removals themselves keep to. *)
Lemma removal_loop_run (self : CobblerAction) (ok : W -> Prop) :
  (forall name w, ok w ->
     exists v w', respond (Rpc.remove_system name (token self)) w = (Return v, w')
                  /\ ok w') ->
  forall (names : list pyval) (w : W),
    ok w ->
    exists w',
      for_in names (purge_turn respond self) w
      = (Return None, w', map (removal self) names).
Proof.
  intros Hanswer names. induction names as [| name rest IH]; intros w Hok.
  - exists w. reflexivity.
  - destruct (Hanswer name w Hok) as (v & w1 & Hcall & Hok1).
    destruct (IH w1 Hok1) as (w2 & Hrest).
    exists w2.
    rewrite (for_in_next _ _ _ _ _ _ (purge_turn_run self _ _ _ _ Hcall)).
    rewrite Hrest. reflexivity.
Qed.

Lemma removal_not_fetch (self : CobblerAction) (names : list pyval) :
  filter is_fetch_systems (map (removal self) names) = [].
Proof. induction names; simpl; auto. Qed.

Lemma removal_is_remove (self : CobblerAction) (names : list pyval) :
  filter is_remove (map (removal self) names) = map (removal self) names.
Proof. induction names; simpl; congruence. Qed.

End Runs.

(** ** Catalog reads *)

(** C8: when fetching the systems leaves the remote state as it was,
    a second [system_names] returns what the first returned (the same
    names in the same order, or the same exception), and leaves the remote
    state unchanged again. *)
Theorem system_names_twice_same
  (W : Type) (respond : Rpc.call -> W -> outcome pyval * W) (w : W) :
  snd (respond Rpc.get_systems w) = w ->
  let first := system_names respond w in
  let second := system_names respond (final first) in
  result second = result first /\
  final second = w /\
  trace second = trace first.
Proof.
  intros Hpure first second. subst first second.
  rewrite (system_names_run respond w). unfold final, result, trace. simpl.
  rewrite Hpure. rewrite (system_names_run respond w). simpl.
  rewrite Hpure. repeat split.
Qed.

Lemma system_names_twice_same_witness :
  snd (Remote.respond Rpc.get_systems Sample.lab_with_hosts) = Sample.lab_with_hosts /\
  result (system_names Remote.respond Sample.lab_with_hosts)
    = Return [PStr "h1"; PStr "h2"] /\
  result (system_names Remote.respond
            (final (system_names Remote.respond Sample.lab_with_hosts)))
    = result (system_names Remote.respond Sample.lab_with_hosts).
Proof.
  split; [reflexivity |]. split; [reflexivity |].
  apply (system_names_twice_same Remote.state Remote.respond Sample.lab_with_hosts).
  reflexivity.
Defined.

(** C7: when no record of a collection bears the name, the lookup over
    that collection ([get_system], [get_profile], [get_distro]) returns
    None; it does not raise. *)
Theorem lookup_absent_returns_none
  (W : Type) (respond : Rpc.call -> W -> outcome pyval * W)
  (k : collection) (name : pyval) (records : list pyval) (w w1 : W) :
  respond (fetch_of k) w = (Return (PList records), w1) ->
  no_record_named name records = true ->
  result (lookup respond k name w) = Return PNone.
Proof.
  intros Hfetch Habsent.
  destruct k; simpl in *; unfold get_system, get_profile, get_distro;
    rewrite (first_named_absent respond _ name records w w1 Hfetch Habsent);
    reflexivity.
Qed.

Lemma lookup_absent_returns_none_witness :
  result (get_system Remote.respond (PStr "h9") Sample.lab_with_hosts) = Return PNone /\
  result (get_profile Remote.respond (PStr "p9") Sample.lab_with_hosts) = Return PNone /\
  result (get_distro Remote.respond (PStr "riscv") Sample.lab_with_hosts) = Return PNone.
Proof.
  split; [| split].
  - apply (lookup_absent_returns_none Remote.state Remote.respond Systems (PStr "h9")
             (Remote.systems Sample.lab_with_hosts)
             Sample.lab_with_hosts Sample.lab_with_hosts);
      reflexivity.
  - apply (lookup_absent_returns_none Remote.state Remote.respond Profiles (PStr "p9")
             (Remote.profiles Sample.lab_with_hosts)
             Sample.lab_with_hosts Sample.lab_with_hosts);
      reflexivity.
  - apply (lookup_absent_returns_none Remote.state Remote.respond Distros (PStr "riscv")
             (Remote.distros Sample.lab_with_hosts)
             Sample.lab_with_hosts Sample.lab_with_hosts);
      reflexivity.
Defined.

(** ** Purge *)

(** C6: [purge_systems] fetches the system names once, first, and then,
    on a remote that answers every removal, issues one [remove_system] per
    name of that list, in order, and nothing else: as many removals as
    names observed, and none for a name that was not in the list,
    whatever the remote does to its catalog in between. *)
Theorem purge_systems_removes_observed_names
  (W : Type) (respond : Rpc.call -> W -> outcome pyval * W)
  (self : CobblerAction) (ok : W -> Prop) (w : W) (names : list pyval) :
  result (system_names respond w) = Return names ->
  ok (final (system_names respond w)) ->
  (forall name w', ok w' ->
     exists v w'',
       respond (Rpc.remove_system name (token self)) w' = (Return v, w'') /\ ok w'') ->
  let run := purge_systems respond self w in
  result run = Return PNone /\
  trace run = Called Rpc.get_systems :: map (removal self) names /\
  List.length (filter is_fetch_systems (trace run)) = 1%nat /\
  List.length (filter is_remove (trace run)) = List.length names /\
  (forall name, ~ In name names -> ~ In (removal self name) (trace run)).
Proof.
  intros Hnames Hok Hanswer run.
  rewrite (system_names_run respond w) in Hnames, Hok.
  unfold result, final in Hnames, Hok. simpl in Hnames, Hok.
  destruct (removal_loop_run respond self ok Hanswer names _ Hok) as (w2 & Hloop).
  assert (Hrun : run = (Return PNone, w2,
                        Called Rpc.get_systems :: map (removal self) names)).
  { subst run. unfold purge_systems.
    unfold bind at 1. rewrite (system_names_run respond w). rewrite Hnames.
    unfold bind at 1. rewrite Hloop. simpl. rewrite app_nil_r. reflexivity. }
  rewrite Hrun. unfold result, trace. simpl.
  rewrite removal_not_fetch, removal_is_remove, length_map.
  repeat split.
  intros name Hnew [Habs | Hin]; [discriminate |].
  apply in_map_iff in Hin as (name' & Heq & Hin').
  unfold removal in Heq. injection Heq as Heq. subst name'. contradiction.
Qed.

Lemma purge_systems_removes_observed_names_witness :
  result (system_names Remote.respond Sample.lab_with_hosts)
    = Return [PStr "h1"; PStr "h2"] /\
  trace (purge_systems Remote.respond Sample.client Sample.lab_with_hosts)
    = [Called Rpc.get_systems;
       Called (Rpc.remove_system (PStr "h1") (PStr "tok"));
       Called (Rpc.remove_system (PStr "h2") (PStr "tok"))].
Proof.
  split; [reflexivity |].
  apply (purge_systems_removes_observed_names Remote.state Remote.respond
           Sample.client (fun s => Remote.session s = PStr "tok")
           Sample.lab_with_hosts [PStr "h1"; PStr "h2"]).
  - reflexivity.
  - reflexivity.
  - intros name s Hs. unfold Remote.respond. simpl. rewrite Hs. simpl.
    eexists. eexists. split; [reflexivity | exact Hs].
Defined.

(** Whatever the remote answers, a removal that fails included, the calls
    of [purge_systems] after the fetch are removals of the first names of
    the observed list, in order: it never removes another name, and never
    fetches again. *)
Lemma removal_loop_prefix
  (W : Type) (respond : Rpc.call -> W -> outcome pyval * W)
  (self : CobblerAction) (names : list pyval) (w : W) :
  exists k,
    trace (for_in names (purge_turn respond self) w)
    = map (removal self) (firstn k names).
Proof.
  revert w. induction names as [| name rest IH]; intros w.
  - exists 0%nat. reflexivity.
  - destruct (respond (Rpc.remove_system name (token self)) w) as [[v | e] w1] eqn:Hcall.
    + destruct (IH w1) as (k & Hrest). exists (S k).
      rewrite (for_in_next _ _ _ _ _ _ (purge_turn_run respond self _ _ _ _ Hcall)).
      unfold trace in *. simpl. rewrite Hrest. reflexivity.
    + exists 1%nat.
      rewrite (for_in_raise _ _ rest w w1 [removal self name] e).
      * reflexivity.
      * unfold purge_turn.
        now rewrite (bind_raise _ _ _ _ _ _ (rpc_run _ _ _ _ _ Hcall)).
Qed.

Lemma purge_systems_removes_only_observed
  (W : Type) (respond : Rpc.call -> W -> outcome pyval * W)
  (self : CobblerAction) (w : W) (names : list pyval) :
  result (system_names respond w) = Return names ->
  exists k,
    trace (purge_systems respond self w)
    = Called Rpc.get_systems :: map (removal self) (firstn k names).
Proof.
  intros Hnames. rewrite (system_names_run respond w) in Hnames.
  unfold result in Hnames. simpl in Hnames.
  destruct (removal_loop_prefix W respond self names (snd (respond Rpc.get_systems w)))
    as (k & Hloop).
  exists k. unfold purge_systems.
  unfold bind at 1. rewrite (system_names_run respond w). rewrite Hnames.
  unfold bind at 1. unfold trace in *.
  destruct (for_in names (purge_turn respond self) (snd (respond Rpc.get_systems w)))
    as [[[r | e] w2] t2]; simpl in *; rewrite Hloop; rewrite ?app_nil_r; reflexivity.
Qed.

(** ** Boot arguments *)

Lemma string_app_assoc (a b c : string) :
  ((a ++ b) ++ c)%string = (a ++ (b ++ c))%string.
Proof. induction a as [| ch a IH]; simpl; [reflexivity | now rewrite IH]. Qed.

Lemma string_app_nil_r (a : string) : (a ++ "")%string = a.
Proof. induction a as [| ch a IH]; simpl; [reflexivity | now rewrite IH]. Qed.

(** The accumulator of the loop, after the pairs [args], holds what it
    held before followed by their segments. *)
Lemma arg_str_loop (args : list (string * string)) (acc : string) :
  fold_left
    (fun arg_str arg =>
       ((((arg_str ++ " ") ++ fst arg) ++ "=") ++ snd arg)%string)
    args acc
  = (acc ++ segments args)%string.
Proof.
  revert acc. induction args as [| arg rest IH]; intros acc; simpl.
  - now rewrite string_app_nil_r.
  - rewrite IH. unfold segment.
    rewrite !string_app_assoc. reflexivity.
Qed.

Lemma arg_str_of_segments (args : list (string * string)) :
  arg_str_of args = segments args.
Proof. unfold arg_str_of. now rewrite arg_str_loop. Qed.

(** C5: the string [set_system_args] builds is the segments [" name=value"]
    of the pairs, in the order given, each pair once and its text as it
    is; for a host whose handle the remote hands out, this string is the
    value of the one [modify_system] call, on the field [kernel_options].
    For the pairs (ip, dhcp), (console, ttyS0) the string is
    [" ip=dhcp console=ttyS0"]. *)
Theorem set_system_args_writes_segments
  (W : Type) (respond : Rpc.call -> W -> outcome pyval * W)
  (self : CobblerAction) (hostname : pyval) (args : list (string * string))
  (w w1 : W) (handle : pyval) :
  respond (Rpc.get_system_handle hostname (token self)) w = (Return handle, w1) ->
  let run := set_system_args respond self hostname args w in
  let write :=
    Called (Rpc.modify_system handle "kernel_options" (PStr (segments args))
              (token self)) in
  arg_str_of args = segments args /\
  firstn 2 (calls (trace run))
    = [Called (Rpc.get_system_handle hostname (token self)); write] /\
  filter is_modify (trace run) = [write] /\
  arg_str_of [("ip", "dhcp"); ("console", "ttyS0")] = " ip=dhcp console=ttyS0".
Proof.
  intros Hhandle run write. subst run write.
  split; [apply arg_str_of_segments |].
  unfold set_system_args, get_system_handle.
  rewrite arg_str_of_segments.
  unfold bind, print, rpc, ret, trace, calls. rewrite Hhandle.
  destruct (respond (Rpc.modify_system handle "kernel_options"
                       (PStr (segments args)) (token self)) w1)
    as [[v | e] w2]; simpl.
  - destruct (respond (Rpc.save_system handle (token self)) w2)
      as [[v' | e'] w3]; simpl; repeat split.
  - repeat split.
Qed.

Lemma set_system_args_writes_segments_witness :
  Remote.respond (Rpc.get_system_handle (PStr "h1") (PStr "tok")) Sample.lab_with_hosts
    = (Return (PInt 0),
       Remote.with_handles Sample.lab_with_hosts
         [[(PStr "name", PStr "h1"); (PStr "profile", PStr "p1")]]) /\
  filter is_modify
    (trace (set_system_args Remote.respond Sample.client (PStr "h1")
              [("ip", "dhcp"); ("console", "ttyS0")] Sample.lab_with_hosts))
    = [Called (Rpc.modify_system (PInt 0) "kernel_options"
                 (PStr " ip=dhcp console=ttyS0") (PStr "tok"))].
Proof.
  split; [reflexivity |].
  apply (set_system_args_writes_segments Remote.state Remote.respond Sample.client
           (PStr "h1") [("ip", "dhcp"); ("console", "ttyS0")]
           Sample.lab_with_hosts
           (Remote.with_handles Sample.lab_with_hosts
              [[(PStr "name", PStr "h1"); (PStr "profile", PStr "p1")]])
           (PInt 0)).
  reflexivity.
Defined.

(** ** Default profile *)

Lemma no_record_named_has_name (name : pyval) (records : list pyval) :
  no_record_named name records = true -> forallb has_name records = true.
Proof.
  induction records as [| record rest IH]; simpl; [reflexivity |].
  intros H. apply andb_prop in H as [Hhead Hrest].
  unfold has_name. destruct (py_getitem record "name"); [| discriminate].
  simpl. auto.
Qed.

Section StaticCatalog.

(** A remote whose distro collection reads the same, and unchanged, at
    the state [w]. *)
Context {W : Type}.
Variable respond : Rpc.call -> W -> outcome pyval * W.
Variable w : W.
Variable distros : list pyval.
Hypothesis fetch_distros :
  respond Rpc.get_distros w = (Return (PList distros), w).

Lemma scan_finds_first (name : pyval) (records : list pyval) :
  forallb has_name records = true ->
  for_in records (name_turn name) w
  = (Return (find (named name) records), w, []).
Proof.
  induction records as [| record rest IH]; intros Hnames.
  - reflexivity.
  - simpl in Hnames. apply andb_prop in Hnames as [Hhead Hrest].
    unfold has_name in Hhead.
    destruct (py_getitem record "name") as [n | e] eqn:En; [| discriminate].
    simpl find. unfold named at 1. rewrite En.
    destruct (py_eq n name) eqn:Eq.
    + erewrite for_in_return
        by (rewrite name_turn_run, En, Eq; reflexivity).
      reflexivity.
    + erewrite for_in_next
        by (rewrite name_turn_run, En, Eq; reflexivity).
      rewrite (IH Hrest). reflexivity.
Qed.

Lemma get_distro_static (name : pyval) :
  forallb has_name distros = true ->
  get_distro respond name w
  = (Return (match find (named name) distros with
             | Some distro => distro
             | None => PNone
             end), w, [Called Rpc.get_distros]).
Proof.
  intros Hnames. unfold get_distro, first_named.
  rewrite (bind_return _ _ _ _ _ _ (rpc_run _ _ _ _ _ fetch_distros)).
  unfold bind, lift. simpl.
  rewrite (scan_finds_first name distros Hnames).
  destruct (find (named name) distros); reflexivity.
Qed.

Lemma profile_turn_resolved (arch profile a : pyval) :
  forallb has_name distros = true ->
  distro_arch distros profile = Some a ->
  exists t,
    profile_turn respond arch profile w
    = (if py_eq a arch
       then match py_getitem profile "name" with
            | Return n => Return (Some n)
            | Raise e => Raise e
            end
       else Return None, w, t).
Proof.
  intros Hnames Harch. unfold distro_arch in Harch. unfold profile_turn.
  unfold bind at 1. unfold lift at 1.
  destruct (py_getitem profile "distro") as [dn | e]; [| discriminate].
  unfold bind at 1. rewrite (get_distro_static dn Hnames).
  destruct (find (named dn) distros) as [d |]; [| discriminate].
  unfold bind at 1. unfold lift at 1.
  destruct (py_getitem d "arch") as [a' | e]; [| discriminate].
  injection Harch as ->.
  destruct (py_eq a arch).
  - unfold bind, lift. destruct (py_getitem profile "name"); eexists; reflexivity.
  - eexists; reflexivity.
Qed.

Lemma profile_turn_dangling (arch profile : pyval) :
  dangling distros profile = true ->
  exists t, profile_turn respond arch profile w = (Raise TypeError, w, t).
Proof.
  intros Hdangling. unfold dangling in Hdangling. unfold profile_turn.
  unfold bind at 1. unfold lift at 1.
  destruct (py_getitem profile "distro") as [dn | e]; [| discriminate].
  unfold bind at 1. unfold get_distro.
  rewrite (first_named_absent respond _ dn distros w w fetch_distros Hdangling).
  eexists; reflexivity.
Qed.

(** The loop over a catalog that resolves finds the first profile that
    serves the architecture. *)
Lemma profile_loop_resolved (arch : pyval) (profiles : list pyval) :
  forallb has_name distros = true ->
  forallb (resolves distros) profiles = true ->
  exists t,
    for_in profiles (profile_turn respond arch) w
    = (Return (match find (serves distros arch) profiles with
               | Some profile =>
                   match py_getitem profile "name" with
                   | Return n => Some n
                   | Raise _ => Some PNone
                   end
               | None => None
               end), w, t).
Proof.
  intros Hnames. induction profiles as [| profile rest IH]; intros Hres.
  - eexists; reflexivity.
  - simpl in Hres. apply andb_prop in Hres as [Hhead Hrest].
    unfold resolves in Hhead. apply andb_prop in Hhead as [Hname Harch].
    destruct (distro_arch distros profile) as [a |] eqn:Ea; [| discriminate].
    destruct (profile_turn_resolved arch profile a Hnames Ea) as (t1 & Hturn).
    simpl. unfold serves at 1. rewrite Ea.
    unfold bind at 1. rewrite Hturn.
    unfold has_name in Hname.
    destruct (py_eq a arch).
    + destruct (py_getitem profile "name"); [| discriminate].
      eexists; reflexivity.
    + destruct (IH Hrest) as (t2 & Hloop). rewrite Hloop.
      eexists; reflexivity.
Qed.

(** The loop fails at the first profile whose distro is missing, when
    the profiles before it are passed over. *)
Lemma profile_loop_dangling (arch profile : pyval) (before after : list pyval) :
  forallb (passed_over distros arch) before = true ->
  dangling distros profile = true ->
  exists t,
    for_in (before ++ profile :: after) (profile_turn respond arch) w
    = (Raise TypeError, w, t).
Proof.
  intros Hbefore Hdangling.
  assert (Hnames : forallb has_name distros = true).
  { unfold dangling in Hdangling.
    destruct (py_getitem profile "distro"); [| discriminate].
    eapply no_record_named_has_name; eassumption. }
  induction before as [| p rest IH].
  - destruct (profile_turn_dangling arch profile Hdangling) as (t & Hturn).
    simpl. unfold bind at 1. rewrite Hturn. eexists; reflexivity.
  - simpl in Hbefore. apply andb_prop in Hbefore as [Hhead Hrest].
    unfold passed_over in Hhead.
    destruct (distro_arch distros p) as [a |] eqn:Ea; [| discriminate].
    destruct (profile_turn_resolved arch p a Hnames Ea) as (t1 & Hturn).
    apply negb_true_iff in Hhead. rewrite Hhead in Hturn.
    destruct (IH Hrest) as (t2 & Hloop).
    simpl. unfold bind at 1. rewrite Hturn. rewrite Hloop.
    eexists; reflexivity.
Qed.

End StaticCatalog.

(** C4: on a catalog that reads the same at every fetch and in which
    every profile's distro resolves, [get_default_profile_name] returns
    the name of the first profile, in catalog order, whose distro has the
    architecture asked for, and the string ['no-profile'] when no profile
    has one. *)
Theorem get_default_profile_name_first_match
  (W : Type) (respond : Rpc.call -> W -> outcome pyval * W) (w : W)
  (profiles distros : list pyval) (arch : pyval) :
  respond Rpc.get_profiles w = (Return (PList profiles), w) ->
  respond Rpc.get_distros w = (Return (PList distros), w) ->
  referential_integrity profiles distros = true ->
  result (get_default_profile_name respond arch w)
    = Return (resolve_default_profile profiles distros arch) /\
  (find (serves distros arch) profiles = None ->
   result (get_default_profile_name respond arch w) = Return (PStr "no-profile")).
Proof.
  intros Hprofiles Hdistros Hintegrity.
  unfold referential_integrity in Hintegrity.
  apply andb_prop in Hintegrity as [Hnames Hres].
  destruct (profile_loop_resolved respond w distros Hdistros arch profiles Hnames Hres)
    as (t & Hloop).
  assert (Hrun : result (get_default_profile_name respond arch w)
                 = Return (resolve_default_profile profiles distros arch)).
  { unfold get_default_profile_name.
    rewrite (bind_return _ _ _ _ _ _ (rpc_run _ _ _ _ _ Hprofiles)).
    unfold result. simpl.
    unfold bind at 1. unfold lift at 1.
    unfold bind at 1. rewrite Hloop.
    unfold resolve_default_profile.
    destruct (find (serves distros arch) profiles) as [p |]; [| reflexivity].
    destruct (py_getitem p "name"); reflexivity. }
  split; [exact Hrun |].
  intros Hnone. rewrite Hrun. unfold resolve_default_profile.
  rewrite Hnone. reflexivity.
Qed.

Lemma get_default_profile_name_first_match_witness :
  referential_integrity (Remote.profiles Sample.lab) (Remote.distros Sample.lab) = true /\
  result (get_default_profile_name Remote.respond (PStr "aarch64") Sample.lab)
    = Return (PStr "p2") /\
  result (get_default_profile_name Remote.respond (PStr "riscv64") Sample.lab)
    = Return (PStr "no-profile").
Proof.
  split; [reflexivity |]. split.
  - apply (get_default_profile_name_first_match Remote.state Remote.respond Sample.lab
             (Remote.profiles Sample.lab) (Remote.distros Sample.lab) (PStr "aarch64"));
      reflexivity.
  - apply (get_default_profile_name_first_match Remote.state Remote.respond Sample.lab
             (Remote.profiles Sample.lab) (Remote.distros Sample.lab) (PStr "riscv64"));
      reflexivity.
Defined.

(** C9: when a profile names a distro the catalog does not have, and the
    profiles before it are passed over, the distro lookup returns None,
    reading [arch] from None raises TypeError, and
    [get_default_profile_name] ends with that exception: it does not
    return ['no-profile']. *)
Theorem get_default_profile_name_dangling_distro
  (W : Type) (respond : Rpc.call -> W -> outcome pyval * W) (w : W)
  (before after distros : list pyval) (profile arch : pyval) :
  respond Rpc.get_profiles w = (Return (PList (before ++ profile :: after)), w) ->
  respond Rpc.get_distros w = (Return (PList distros), w) ->
  forallb (passed_over distros arch) before = true ->
  dangling distros profile = true ->
  (exists distro_name,
     py_getitem profile "distro" = Return distro_name /\
     result (get_distro respond distro_name w) = Return PNone) /\
  py_getitem PNone "arch" = Raise TypeError /\
  result (get_default_profile_name respond arch w) = Raise TypeError.
Proof.
  intros Hprofiles Hdistros Hbefore Hdangling.
  split; [| split].
  - unfold dangling in Hdangling.
    destruct (py_getitem profile "distro") as [dn | e]; [| discriminate].
    exists dn. split; [reflexivity |].
    unfold get_distro.
    rewrite (first_named_absent respond _ dn distros w w Hdistros Hdangling).
    reflexivity.
  - reflexivity.
  - destruct (profile_loop_dangling respond w distros Hdistros arch profile
                before after Hbefore Hdangling) as (t & Hloop).
    unfold get_default_profile_name.
    rewrite (bind_return _ _ _ _ _ _ (rpc_run _ _ _ _ _ Hprofiles)).
    unfold result. simpl.
    unfold bind at 1. unfold lift at 1.
    unfold bind at 1. rewrite Hloop. reflexivity.
Qed.

Lemma get_default_profile_name_dangling_distro_witness :
  dangling (Remote.distros Sample.lab_with_dangling_profile)
    (Sample.str_dict [("name", PStr "p0"); ("distro", PStr "gone")]) = true /\
  result (get_default_profile_name Remote.respond (PStr "riscv64")
            Sample.lab_with_dangling_profile) = Raise TypeError.
Proof.
  split; [reflexivity |].
  apply (get_default_profile_name_dangling_distro Remote.state Remote.respond
           Sample.lab_with_dangling_profile
           [] (Remote.profiles Sample.lab)
           (Remote.distros Sample.lab_with_dangling_profile)
           (Sample.str_dict [("name", PStr "p0"); ("distro", PStr "gone")])
           (PStr "riscv64"));
    reflexivity.
Defined.

(** ** The create workflow *)

Lemma contains_dict_get (kvs : list (pyval * pyval)) (key : string) :
  py_contains key (PDict kvs)
  = Return (match dict_get kvs (PStr key) with Some _ => true | None => false end).
Proof.
  unfold py_contains. f_equal.
  induction kvs as [| [k v] rest IH]; simpl; [reflexivity |].
  destruct (py_eq k (PStr key)); simpl; auto.
Qed.

(** The loop over the items of a dictionary with at least one entry stops
    at the first: an item is a tuple, and a tuple has no entry [mac]. *)
Lemma interfaces_loop_raises
  (W : Type) (kv : pyval * pyval) (kvs ifaces : list (pyval * pyval)) (w : W) :
  exists items,
    py_items (PDict (kv :: kvs)) = Return items /\
    interfaces_loop items ifaces w = (Raise TypeError, w, []).
Proof. eexists. split; reflexivity. Qed.

Section CreateWorkflow.

Context {W : Type}.
Variable respond : Rpc.call -> W -> outcome pyval * W.
Variable json_loads : string -> outcome pyval.
Variable self : CobblerAction.

Lemma bind_returns {A B : Type} (m : M W A) (f : A -> M W B) (w : W) (v : B) :
  result (bind m f w) = Return v ->
  exists a w1, result (f a w1) = Return v.
Proof.
  unfold result, bind.
  destruct (m w) as [[[a | e] w1] t1]; simpl; [| discriminate].
  intros H. exists a, w1.
  destruct (f a w1) as [[r w2] t2]. exact H.
Qed.

(** What the [except] clause makes of a run of the [try] block. *)
Lemma add_system_run (text : string) (w : W) :
  add_system respond json_loads self text w
  = (match result (add_system_try respond json_loads self text w) with
     | Return v => Return v
     | Raise e => Return (Some e)
     end,
     final (add_system_try respond json_loads self text w),
     trace (add_system_try respond json_loads self text w)).
Proof.
  unfold add_system, try_except, result, final, trace.
  destruct (add_system_try respond json_loads self text w) as [[[v | e] w1] t1];
    simpl; [reflexivity |].
  now rewrite app_nil_r.
Qed.

(** Both [return] statements of the [try] block return None. *)
Lemma add_system_try_returns_none (text : string) (w : W) (v : option exn) :
  result (add_system_try respond json_loads self text w) = Return v ->
  v = None.
Proof.
  intros H. unfold add_system_try in H.
  repeat (apply bind_returns in H; destruct H as (? & ? & H)).
  match type of H with
  | context [if ?b then _ else _] => destruct b
  end;
    repeat (apply bind_returns in H; destruct H as (? & ? & H));
    unfold result, ret in H; simpl in H; congruence.
Qed.

(** The run on a payload that lacks a required field and names its
    host. *)
Lemma add_system_try_rejected (text : string) (w w1 : W)
      (kvs : list (pyval * pyval)) (host : string) (handle : pyval) :
  json_loads text = Return (PDict kvs) ->
  missing_required kvs = true ->
  dict_get kvs (PStr "server_name") = Some (PStr host) ->
  respond (Rpc.new_system (token self)) w = (Return handle, w1) ->
  add_system_try respond json_loads self text w
  = (Return None, w1,
     [Called (Rpc.new_system (token self)); Printed (schema_warning host)]).
Proof.
  intros Hloads Hmissing Hname Hnew. unfold add_system_try.
  unfold bind at 1. unfold lift at 1. rewrite Hloads.
  unfold bind at 1. rewrite (rpc_run _ _ _ _ _ Hnew).
  unfold bind at 1. unfold lift at 1. rewrite contains_dict_get.
  unfold bind at 1.
  unfold missing_required in Hmissing.
  assert (Hboth :
            (if match dict_get kvs (PStr "arch") with Some _ => true | None => false end
             then lift (py_contains "host_ports" (PDict kvs))
             else ret false) w1 = (Return false, w1, [])).
  { destruct (dict_get kvs (PStr "arch")); [| reflexivity].
    unfold lift. rewrite contains_dict_get.
    destruct (dict_get kvs (PStr "host_ports")); [discriminate | reflexivity]. }
  rewrite Hboth. simpl negb. cbv iota.
  unfold bind, lift, print, ret, py_getitem. rewrite Hname. reflexivity.
Qed.

End CreateWorkflow.

(** On the reference remote, a run on a payload that lacks a required
    field leaves the system collection as it was. *)
Lemma rejected_run_keeps_systems
  (json_loads : string -> outcome pyval) (self : CobblerAction) (text : string)
  (s : Remote.state) (kvs : list (pyval * pyval)) (host : string) :
  json_loads text = Return (PDict kvs) ->
  missing_required kvs = true ->
  dict_get kvs (PStr "server_name") = Some (PStr host) ->
  Remote.systems (final (add_system Remote.respond json_loads self text s))
  = Remote.systems s.
Proof.
  intros Hloads Hmissing Hname. rewrite add_system_run. unfold final at 1. simpl.
  destruct (py_eq (token self) (Remote.session s)) eqn:Etoken.
  - rewrite (add_system_try_rejected Remote.respond json_loads self text s
               (Remote.with_handles s (Remote.handles s ++ [[]])) kvs host
               (PInt (Z.of_nat (List.length (Remote.handles s))))
               Hloads Hmissing Hname).
    + reflexivity.
    + unfold Remote.respond. simpl. rewrite Etoken. reflexivity.
  - unfold add_system_try.
    unfold bind at 1. unfold lift at 1. rewrite Hloads.
    unfold bind at 1. unfold rpc, Remote.respond. simpl. rewrite Etoken.
    reflexivity.
Qed.

(** C1, as the code has it: on a payload that lacks [arch] or
    [host_ports] and names its host, [add_system] first opens a handle
    with [new_system]; once that call is answered it prints the schema
    warning for the host and returns None, with no other remote call (no
    [modify_system], no [save_system]); on the reference remote the
    system collection is left as it was. *)
Theorem add_system_rejects_after_new_system
  (W : Type) (respond : Rpc.call -> W -> outcome pyval * W)
  (json_loads : string -> outcome pyval) (self : CobblerAction)
  (text : string) (w w1 : W) (kvs : list (pyval * pyval)) (host : string)
  (handle : pyval) (s : Remote.state) :
  json_loads text = Return (PDict kvs) ->
  missing_required kvs = true ->
  dict_get kvs (PStr "server_name") = Some (PStr host) ->
  respond (Rpc.new_system (token self)) w = (Return handle, w1) ->
  let run := add_system respond json_loads self text w in
  result run = Return None /\
  trace run = [Called (Rpc.new_system (token self)); Printed (schema_warning host)] /\
  calls (trace run) = [Called (Rpc.new_system (token self))] /\
  final run = w1 /\
  Remote.systems (final (add_system Remote.respond json_loads self text s))
  = Remote.systems s.
Proof.
  intros Hloads Hmissing Hname Hnew run. subst run.
  rewrite add_system_run.
  rewrite (add_system_try_rejected respond json_loads self text w w1 kvs host handle
             Hloads Hmissing Hname Hnew).
  unfold result, trace, final at 1. simpl.
  repeat split.
  eapply rejected_run_keeps_systems; eassumption.
Qed.

Lemma add_system_rejects_after_new_system_witness :
  missing_required
    [(PStr "server_name", PStr "h1"); (PStr "arch", PStr "x86_64");
     (PStr "ipmi_fqdn", PStr "bmc1"); (PStr "ipmi_user", PStr "u");
     (PStr "ipmi_pass", PStr "p")] = true /\
  trace (add_system Remote.respond Sample.loads Sample.client "h1-legacy.json" Sample.lab)
  = [Called (Rpc.new_system (PStr "tok"));
     Printed "WARNING: Host schema for h1 is out of date! Reimport this host."].
Proof.
  split; [reflexivity |].
  apply (add_system_rejects_after_new_system Remote.state Remote.respond Sample.loads
           Sample.client "h1-legacy.json" Sample.lab
           (Remote.with_handles Sample.lab [[]])
           [(PStr "server_name", PStr "h1"); (PStr "arch", PStr "x86_64");
            (PStr "ipmi_fqdn", PStr "bmc1"); (PStr "ipmi_user", PStr "u");
            (PStr "ipmi_pass", PStr "p")]
           "h1" (PInt 0) Sample.lab);
    reflexivity.
Defined.

(** C1 as stated fails: the payload of [h1] without [host_ports] is
    rejected, yet [new_system] has been called. *)
Lemma add_system_rejection_calls_new_system :
  calls (trace (add_system Remote.respond Sample.loads Sample.client
                  "h1-legacy.json" Sample.lab))
  = [Called (Rpc.new_system (PStr "tok"))] /\
  ~ (forall (W : Type) (respond : Rpc.call -> W -> outcome pyval * W)
            (json_loads : string -> outcome pyval) (self : CobblerAction)
            (text : string) (w : W) (kvs : list (pyval * pyval)),
        json_loads text = Return (PDict kvs) ->
        missing_required kvs = true ->
        calls (trace (add_system respond json_loads self text w)) = []).
Proof.
  split; [reflexivity |].
  intros Hclaim.
  specialize (Hclaim Remote.state Remote.respond Sample.loads Sample.client
                "h1-legacy.json" Sample.lab _ eq_refl eq_refl).
  discriminate Hclaim.
Qed.

(** C2, on the code: for the System definition of [h1], against the lab
    whose profile [p1] is on an x86_64 distro, [add_system] stages the
    name, the hostname and the profile [p1], then fails with TypeError at
    the first port (an item of [host_ports.items()] is a tuple, which has
    no entry [mac]); it returns that exception, issues no [save_system],
    and the system collection stays empty.  Any [host_ports] with at least
    one entry fails the same way. *)
Theorem add_system_h1_fails_on_first_port :
  let run := add_system Remote.respond Sample.loads Sample.client "h1.json" Sample.lab in
  result run = Return (Some TypeError) /\
  trace run =
    [Called (Rpc.new_system (PStr "tok"));
     Called (Rpc.modify_system (PInt 0) "name" (PStr "h1") (PStr "tok"));
     Called (Rpc.modify_system (PInt 0) "hostname" (PStr "h1") (PStr "tok"));
     Called Rpc.get_profiles;
     Called Rpc.get_distros;
     Called (Rpc.modify_system (PInt 0) "profile" (PStr "p1") (PStr "tok"))] /\
  filter is_save (trace run) = [] /\
  Remote.systems (final run) = [] /\
  (forall (kv : pyval * pyval) (kvs ifaces : list (pyval * pyval)) (s : Remote.state),
     exists items,
       py_items (PDict (kv :: kvs)) = Return items /\
       interfaces_loop items ifaces s = (Raise TypeError, s, [])).
Proof.
  repeat split.
  intros kv kvs ifaces s. apply interfaces_loop_raises.
Qed.

(** C3: [add_system] never raises.  Whatever the text, the decoder and
    the remote do, it returns: None when its [try] block ran to a
    [return], and the exception when the block raised one.  It makes no
    remote call of its own after the failure: its trace and the remote
    state it leaves are those of the block. *)
Theorem add_system_never_raises
  (W : Type) (respond : Rpc.call -> W -> outcome pyval * W)
  (json_loads : string -> outcome pyval) (self : CobblerAction)
  (text : string) (w : W) :
  let run := add_system respond json_loads self text w in
  let block := add_system_try respond json_loads self text w in
  (exists v, result run = Return v) /\
  result run = match result block with
               | Return v => Return v
               | Raise e => Return (Some e)
               end /\
  trace run = trace block /\
  final run = final block.
Proof.
  intros run block. subst run block.
  unfold add_system, try_except.
  destruct (add_system_try respond json_loads self text w) as [[[v | e] w1] t1];
    unfold result, trace, final; simpl; rewrite ?app_nil_r;
    repeat split; eexists; reflexivity.
Qed.

(** The [try] block does raise: a text that is not JSON, a remote that
    refuses the token, a port that cannot be read. *)
Example add_system_try_raises :
  result (add_system_try Remote.respond Sample.loads Sample.client "<html>" Sample.lab)
  = Raise JSONDecodeError /\
  result (add_system_try Remote.respond Sample.loads Sample.client "h1.json"
            (Remote.with_handles Sample.lab_with_hosts []))
  = Raise TypeError /\
  result (add_system_try Remote.respond Sample.loads
            {| server_url := PNone; user := PNone; password := PNone;
               token := PStr "stale" |}
            "h1.json" Sample.lab)
  = Raise Remote.bad_token.
Proof. repeat split. Qed.

(** C10: [add_system] returns None whenever its [try] block reaches a
    [return], the one after the schema warning or the one after
    [save_system], and returns the exception only when the block raised
    one.  So the rejected payload of [h1] and a payload of [h1] that is
    committed both give None, the first with no [save_system] and an
    unchanged collection, the second with the record saved. *)
Theorem add_system_none_on_commit_and_on_rejection
  (W : Type) (respond : Rpc.call -> W -> outcome pyval * W)
  (json_loads : string -> outcome pyval) (self : CobblerAction)
  (text : string) (w : W) :
  let rejected :=
    add_system Remote.respond Sample.loads Sample.client "h1-legacy.json" Sample.lab in
  let committed :=
    add_system Remote.respond Sample.loads Sample.client "h1-portless.json" Sample.lab in
  let failed :=
    add_system Remote.respond Sample.loads Sample.client "h1.json" Sample.lab in
  result (add_system respond json_loads self text w)
  = match result (add_system_try respond json_loads self text w) with
    | Return _ => Return None
    | Raise e => Return (Some e)
    end /\
  (result rejected = Return None /\
   filter is_save (trace rejected) = [] /\
   Remote.systems (final rejected) = []) /\
  (result committed = Return None /\
   filter is_save (trace committed) = [Called (Rpc.save_system (PInt 0) (PStr "tok"))] /\
   map (named (PStr "h1")) (Remote.systems (final committed)) = [true]) /\
  result failed = Return (Some TypeError).
Proof.
  intros rejected committed failed. split; [| repeat split].
  rewrite add_system_run. unfold result at 1. simpl.
  destruct (result (add_system_try respond json_loads self text w)) as [v | e] eqn:E;
    [| reflexivity].
  now rewrite (add_system_try_returns_none respond json_loads self text w v E).
Qed.

(** * Further properties of the client *)

(** ** The readers *)

Section Readers.

Context {W : Type}.
Variable respond : Rpc.call -> W -> outcome pyval * W.

Lemma lookup_first_named (k : collection) (name : pyval) :
  lookup respond k name = first_named respond (fetch_of k) name.
Proof. destruct k; reflexivity. Qed.

Lemma list_names_run (k : collection) (w : W) :
  list_names respond k w =
  (match fst (respond (fetch_of k) w) with
   | Return collection => names_of collection
   | Raise e => Raise e
   end,
   snd (respond (fetch_of k) w),
   [Called (fetch_of k)]).
Proof.
  destruct k; simpl;
    unfold system_names, profile_names, distro_names, bind, rpc, lift;
    match goal with
    | |- context [respond ?c w] => destruct (respond c w) as [[collection | e] w1]
    end; reflexivity.
Qed.

(** The scan for a name makes no call and prints nothing. *)
Lemma name_scan_silent (name : pyval) (records : list pyval) (w : W) :
  exists r, for_in records (name_turn name) w = (r, w, []).
Proof.
  induction records as [| record rest IH].
  - eexists; reflexivity.
  - simpl. unfold bind at 1. rewrite name_turn_run.
    destruct (py_getitem record "name") as [n | e]; [| eexists; reflexivity].
    destruct (py_eq n name); [eexists; reflexivity |].
    destruct IH as (r & Hrest). rewrite Hrest.
    destruct r as [found | e]; eexists; reflexivity.
Qed.

Lemma first_named_fetches_once (fetch : Rpc.call) (name : pyval) (w : W) :
  trace (first_named respond fetch name w) = [Called fetch] /\
  final (first_named respond fetch name w) = snd (respond fetch w).
Proof.
  assert (Hrun : exists r,
             first_named respond fetch name w
             = (r, snd (respond fetch w), [Called fetch])).
  { unfold first_named. unfold bind at 1. unfold rpc.
    destruct (respond fetch w) as [[collection | e] w1]; [| eexists; reflexivity].
    unfold bind at 1. unfold lift at 1.
    destruct (py_iter collection) as [records | e]; [| eexists; reflexivity].
    unfold bind at 1.
    destruct (name_scan_silent name records w1) as (r & Hscan). rewrite Hscan.
    destruct r as [[found |] | e]; eexists; reflexivity. }
  destruct Hrun as (r & Hrun). rewrite Hrun. split; reflexivity.
Qed.

(** A record that bears the name, after records that do not, is the one
    the scan returns; a record without a name there stops the scan. *)
Lemma scan_first_match (name record : pyval) (before after : list pyval) (w : W) :
  no_record_named name before = true ->
  named name record = true ->
  for_in (before ++ record :: after) (name_turn name) w = (Return (Some record), w, []).
Proof.
  intros Hbefore Hnamed. induction before as [| r rest IH].
  - unfold named in Hnamed.
    destruct (py_getitem record "name") as [n | e] eqn:En; [| discriminate].
    simpl app.
    erewrite for_in_return by (rewrite name_turn_run, En, Hnamed; reflexivity).
    reflexivity.
  - simpl in Hbefore. apply andb_prop in Hbefore as [Hhead Hrest].
    destruct (py_getitem r "name") as [n | e] eqn:En; [| discriminate].
    apply negb_true_iff in Hhead. simpl app.
    erewrite for_in_next by (rewrite name_turn_run, En, Hhead; reflexivity).
    rewrite (IH Hrest). reflexivity.
Qed.

Lemma scan_malformed (name bad : pyval) (before after : list pyval) (e : exn) (w : W) :
  no_record_named name before = true ->
  py_getitem bad "name" = Raise e ->
  for_in (before ++ bad :: after) (name_turn name) w = (Raise e, w, []).
Proof.
  intros Hbefore Hbad. induction before as [| r rest IH].
  - simpl app.
    erewrite for_in_raise by (rewrite name_turn_run, Hbad; reflexivity).
    reflexivity.
  - simpl in Hbefore. apply andb_prop in Hbefore as [Hhead Hrest].
    destruct (py_getitem r "name") as [n | e'] eqn:En; [| discriminate].
    apply negb_true_iff in Hhead. simpl app.
    erewrite for_in_next by (rewrite name_turn_run, En, Hhead; reflexivity).
    rewrite (IH Hrest). reflexivity.
Qed.

Lemma first_named_run (fetch : Rpc.call) (name : pyval) (records : list pyval)
      (w w1 : W) (r : outcome (option pyval)) :
  respond fetch w = (Return (PList records), w1) ->
  for_in records (name_turn name) w1 = (r, w1, []) ->
  result (first_named respond fetch name w)
  = match r with
    | Return (Some record) => Return record
    | Return None => Return PNone
    | Raise e => Raise e
    end.
Proof.
  intros Hfetch Hscan. unfold first_named.
  rewrite (bind_return _ _ _ _ _ _ (rpc_run _ _ _ _ _ Hfetch)).
  unfold result, bind, lift. simpl. rewrite Hscan.
  destruct r as [[found |] | e]; reflexivity.
Qed.

End Readers.

(** The names of a list of records, when each has one. *)
Lemma names_of_records (records : list pyval) :
  forallb has_name records = true ->
  exists names,
    names_of (PList records) = Return names /\
    Forall2 (fun record n => py_getitem record "name" = Return n) records names.
Proof.
  unfold names_of. simpl.
  induction records as [| record rest IH]; intros Hnames.
  - exists []. split; [reflexivity | constructor].
  - simpl in Hnames. apply andb_prop in Hnames as [Hhead Hrest].
    unfold has_name in Hhead.
    destruct (py_getitem record "name") as [n | e] eqn:En; [| discriminate].
    destruct (IH Hrest) as (names & Hcomp & Hall).
    exists (n :: names). simpl. rewrite En, Hcomp.
    split; [reflexivity | constructor; assumption].
Qed.

Lemma names_of_malformed (before after : list pyval) (bad : pyval) (e : exn) :
  forallb has_name before = true ->
  py_getitem bad "name" = Raise e ->
  names_of (PList (before ++ bad :: after)) = Raise e.
Proof.
  unfold names_of. simpl. intros Hbefore Hbad.
  induction before as [| record rest IH]; simpl.
  - now rewrite Hbad.
  - simpl in Hbefore. apply andb_prop in Hbefore as [Hhead Hrest].
    unfold has_name in Hhead.
    destruct (py_getitem record "name") as [n | e']; [| discriminate].
    now rewrite (IH Hrest).
Qed.

(** Membership among the names is the presence of a record so named. *)
Lemma py_in_names (name : pyval) (records names : list pyval) :
  Forall2 (fun record n => py_getitem record "name" = Return n) records names ->
  py_in name names
  = match find (named name) records with Some _ => true | None => false end.
Proof.
  unfold py_in. induction 1 as [| record n records names Hn Hall IH]; simpl.
  - reflexivity.
  - unfold named at 1. rewrite Hn. destruct (py_eq n name); simpl; auto.
Qed.

(** X1: [system_names], [profile_names] and [distro_names] return one name
    per record of the fetched collection, in the order of the collection:
    the k-th name is the [name] field of the k-th record. *)
Theorem names_follow_collection
  (W : Type) (respond : Rpc.call -> W -> outcome pyval * W)
  (k : collection) (records : list pyval) (w w1 : W) :
  respond (fetch_of k) w = (Return (PList records), w1) ->
  forallb has_name records = true ->
  exists names,
    result (list_names respond k w) = Return names /\
    List.length names = List.length records /\
    Forall2 (fun record n => py_getitem record "name" = Return n) records names.
Proof.
  intros Hfetch Hnames.
  destruct (names_of_records records Hnames) as (names & Hcomp & Hall).
  exists names. rewrite list_names_run, Hfetch. unfold result. simpl.
  split; [exact Hcomp |]. split; [| exact Hall].
  symmetry. eapply Forall2_length. exact Hall.
Qed.

Lemma names_follow_collection_witness :
  exists names,
    result (profile_names Remote.respond Sample.lab) = Return names /\
    List.length names = 2%nat /\
    Forall2 (fun record n => py_getitem record "name" = Return n)
      (Remote.profiles Sample.lab) names.
Proof.
  apply (names_follow_collection Remote.state Remote.respond Profiles
           (Remote.profiles Sample.lab) Sample.lab Sample.lab);
    reflexivity.
Defined.

(** X2: one record without a [name] field makes the whole name list fail
    with the exception of that access (KeyError for a dictionary,
    TypeError for another value): no partial list is returned. *)
Theorem names_fail_on_malformed_record
  (W : Type) (respond : Rpc.call -> W -> outcome pyval * W)
  (k : collection) (before after : list pyval) (bad : pyval) (e : exn) (w w1 : W) :
  respond (fetch_of k) w = (Return (PList (before ++ bad :: after)), w1) ->
  forallb has_name before = true ->
  py_getitem bad "name" = Raise e ->
  result (list_names respond k w) = Raise e.
Proof.
  intros Hfetch Hbefore Hbad.
  rewrite list_names_run, Hfetch. unfold result. simpl.
  apply names_of_malformed; assumption.
Qed.

Lemma names_fail_on_malformed_record_witness :
  result (system_names Remote.respond
            (Remote.with_systems Sample.lab_with_hosts
               (Remote.systems Sample.lab_with_hosts
                ++ [Sample.str_dict [("hostname", PStr "h3")]])))
  = Raise KeyError.
Proof.
  apply (names_fail_on_malformed_record Remote.state Remote.respond Systems
           (Remote.systems Sample.lab_with_hosts) []
           (Sample.str_dict [("hostname", PStr "h3")]) KeyError
           (Remote.with_systems Sample.lab_with_hosts
              (Remote.systems Sample.lab_with_hosts
               ++ [Sample.str_dict [("hostname", PStr "h3")]]))
           (Remote.with_systems Sample.lab_with_hosts
              (Remote.systems Sample.lab_with_hosts
               ++ [Sample.str_dict [("hostname", PStr "h3")]])));
    reflexivity.
Defined.

(** X3: every reader costs exactly one remote call, the fetch of its
    collection, whatever the remote answers and whatever the records look
    like; it makes no other call, prints nothing, and leaves the remote in
    the state the fetch left. *)
Theorem readers_fetch_once
  (W : Type) (respond : Rpc.call -> W -> outcome pyval * W)
  (k : collection) (name : pyval) (w : W) :
  trace (lookup respond k name w) = [Called (fetch_of k)] /\
  final (lookup respond k name w) = snd (respond (fetch_of k) w) /\
  trace (list_names respond k w) = [Called (fetch_of k)] /\
  final (list_names respond k w) = snd (respond (fetch_of k) w) /\
  trace (system_exists respond name w) = [Called Rpc.get_systems] /\
  trace (profile_exists respond name w) = [Called Rpc.get_profiles].
Proof.
  rewrite lookup_first_named.
  destruct (first_named_fetches_once respond (fetch_of k) name w) as [Ht Hf].
  rewrite list_names_run.
  repeat split; try assumption.
  - unfold system_exists, bind.
    change (system_names respond w) with (list_names respond Systems w).
    rewrite (list_names_run respond Systems w). simpl.
    destruct (fst (respond Rpc.get_systems w)) as [c | e]; [| reflexivity].
    destruct (names_of c); reflexivity.
  - unfold profile_exists, bind.
    change (profile_names respond w) with (list_names respond Profiles w).
    rewrite (list_names_run respond Profiles w). simpl.
    destruct (fst (respond Rpc.get_profiles w)) as [c | e]; [| reflexivity].
    destruct (names_of c); reflexivity.
Qed.

(** X4: a lookup returns the first record, in collection order, that bears
    the name; the records after it are not read, so they need not even
    have a name. *)
Theorem lookup_returns_first_match
  (W : Type) (respond : Rpc.call -> W -> outcome pyval * W)
  (k : collection) (name record : pyval) (before after : list pyval) (w w1 : W) :
  respond (fetch_of k) w = (Return (PList (before ++ record :: after)), w1) ->
  no_record_named name before = true ->
  named name record = true ->
  result (lookup respond k name w) = Return record.
Proof.
  intros Hfetch Hbefore Hnamed. rewrite lookup_first_named.
  rewrite (first_named_run respond _ name _ w w1 _ Hfetch
             (scan_first_match name record before after w1 Hbefore Hnamed)).
  reflexivity.
Qed.

Lemma lookup_returns_first_match_witness :
  result (get_system Remote.respond (PStr "h2")
            (Remote.with_systems Sample.lab
               (Remote.systems Sample.lab_with_hosts ++ [PNone])))
  = Return (Sample.str_dict [("name", PStr "h2"); ("profile", PStr "p2")]).
Proof.
  apply (lookup_returns_first_match Remote.state Remote.respond Systems (PStr "h2")
           (Sample.str_dict [("name", PStr "h2"); ("profile", PStr "p2")])
           [Sample.str_dict [("name", PStr "h1"); ("profile", PStr "p1")]] [PNone]
           (Remote.with_systems Sample.lab
              (Remote.systems Sample.lab_with_hosts ++ [PNone]))
           (Remote.with_systems Sample.lab
              (Remote.systems Sample.lab_with_hosts ++ [PNone])));
    reflexivity.
Defined.

(** X5: a lookup is not shielded from a malformed collection: a record
    without a [name] field, met before any record that bears the name,
    makes the lookup raise the exception of that access. *)
Theorem lookup_raises_on_malformed_record
  (W : Type) (respond : Rpc.call -> W -> outcome pyval * W)
  (k : collection) (name bad : pyval) (before after : list pyval) (e : exn)
  (w w1 : W) :
  respond (fetch_of k) w = (Return (PList (before ++ bad :: after)), w1) ->
  no_record_named name before = true ->
  py_getitem bad "name" = Raise e ->
  result (lookup respond k name w) = Raise e.
Proof.
  intros Hfetch Hbefore Hbad. rewrite lookup_first_named.
  rewrite (first_named_run respond _ name _ w w1 _ Hfetch
             (scan_malformed name bad before after e w1 Hbefore Hbad)).
  reflexivity.
Qed.

Lemma lookup_raises_on_malformed_record_witness :
  result (get_system Remote.respond (PStr "h1")
            (Remote.with_systems Sample.lab
               (PNone :: Remote.systems Sample.lab_with_hosts)))
  = Raise TypeError.
Proof.
  apply (lookup_raises_on_malformed_record Remote.state Remote.respond Systems
           (PStr "h1") PNone [] (Remote.systems Sample.lab_with_hosts) TypeError
           (Remote.with_systems Sample.lab
              (PNone :: Remote.systems Sample.lab_with_hosts))
           (Remote.with_systems Sample.lab
              (PNone :: Remote.systems Sample.lab_with_hosts)));
    reflexivity.
Defined.

(** X6: on a collection whose records all have names, [system_exists]
    answers True exactly when [get_system] returns a record, and False
    exactly when it returns None; likewise [profile_exists] and
    [get_profile]. *)
Theorem exists_agrees_with_lookup
  (W : Type) (respond : Rpc.call -> W -> outcome pyval * W)
  (systems profiles : list pyval) (name : pyval) (w ws wp : W) :
  respond Rpc.get_systems w = (Return (PList systems), ws) ->
  forallb has_name systems = true ->
  respond Rpc.get_profiles w = (Return (PList profiles), wp) ->
  forallb has_name profiles = true ->
  (result (system_exists respond name w)
     = Return (match find (named name) systems with Some _ => true | None => false end) /\
   result (get_system respond name w)
     = Return (match find (named name) systems with Some r => r | None => PNone end)) /\
  (result (profile_exists respond name w)
     = Return (match find (named name) profiles with Some _ => true | None => false end) /\
   result (get_profile respond name w)
     = Return (match find (named name) profiles with Some r => r | None => PNone end)).
Proof.
  intros Hsys Hsysn Hpro Hpron.
  destruct (names_of_records systems Hsysn) as (sn & Hsn & Hsall).
  destruct (names_of_records profiles Hpron) as (pn & Hpn & Hpall).
  repeat split.
  - unfold system_exists, bind.
    change (system_names respond w) with (list_names respond Systems w).
    rewrite (list_names_run respond Systems w).
    simpl. rewrite Hsys. simpl. rewrite Hsn. unfold result. simpl.
    now rewrite (py_in_names name systems sn Hsall).
  - unfold get_system.
    rewrite (first_named_run respond _ name _ w ws _ Hsys
               (scan_finds_first ws name systems Hsysn)).
    destruct (find (named name) systems); reflexivity.
  - unfold profile_exists, bind.
    change (profile_names respond w) with (list_names respond Profiles w).
    rewrite (list_names_run respond Profiles w).
    simpl. rewrite Hpro. simpl. rewrite Hpn. unfold result. simpl.
    now rewrite (py_in_names name profiles pn Hpall).
  - unfold get_profile.
    rewrite (first_named_run respond _ name _ w wp _ Hpro
               (scan_finds_first wp name profiles Hpron)).
    destruct (find (named name) profiles); reflexivity.
Qed.

Lemma exists_agrees_with_lookup_witness :
  result (system_exists Remote.respond (PStr "h2") Sample.lab_with_hosts) = Return true /\
  result (profile_exists Remote.respond (PStr "h2") Sample.lab_with_hosts) = Return false.
Proof.
  split.
  - apply (exists_agrees_with_lookup Remote.state Remote.respond
             (Remote.systems Sample.lab_with_hosts)
             (Remote.profiles Sample.lab_with_hosts) (PStr "h2")
             Sample.lab_with_hosts Sample.lab_with_hosts Sample.lab_with_hosts);
      reflexivity.
  - apply (exists_agrees_with_lookup Remote.state Remote.respond
             (Remote.systems Sample.lab_with_hosts)
             (Remote.profiles Sample.lab_with_hosts) (PStr "h2")
             Sample.lab_with_hosts Sample.lab_with_hosts Sample.lab_with_hosts);
      reflexivity.
Defined.

(** ** Runs of a sequence *)

Section Sequence.

Context {W A B : Type}.
Variable m : M W A.
Variable f : A -> M W B.
Variable w : W.

Lemma trace_bind :
  trace (bind m f w)
  = trace (m w) ++ match result (m w) with
                   | Return a => trace (f a (final (m w)))
                   | Raise _ => []
                   end.
Proof.
  unfold bind, trace, result, final.
  destruct (m w) as [[[a | e] w1] t1]; simpl; [| now rewrite app_nil_r].
  destruct (f a w1) as [[r w2] t2]. reflexivity.
Qed.

Lemma result_bind :
  result (bind m f w)
  = match result (m w) with
    | Return a => result (f a (final (m w)))
    | Raise e => Raise e
    end.
Proof.
  unfold bind, result, final.
  destruct (m w) as [[[a | e] w1] t1]; simpl; [| reflexivity].
  destruct (f a w1) as [[r w2] t2]. reflexivity.
Qed.

Lemma final_bind :
  final (bind m f w)
  = match result (m w) with
    | Return a => final (f a (final (m w)))
    | Raise e => final (m w)
    end.
Proof.
  unfold bind, result, final.
  destruct (m w) as [[[a | e] w1] t1]; simpl; [| reflexivity].
  destruct (f a w1) as [[r w2] t2]. reflexivity.
Qed.

End Sequence.

(** ** The default profile, further *)

Section ProfileScan.

Context {W : Type}.
Variable respond : Rpc.call -> W -> outcome pyval * W.

(** One turn of the scan fetches the distros once, unless the profile has
    no [distro] field, in which case it raises without any call. *)
Lemma profile_turn_trace (arch profile : pyval) (w : W) :
  (trace (profile_turn respond arch profile w) = [] /\
   exists e, result (profile_turn respond arch profile w) = Raise e) \/
  trace (profile_turn respond arch profile w) = [Called Rpc.get_distros].
Proof.
  unfold profile_turn. rewrite trace_bind, result_bind.
  destruct (py_getitem profile "distro") as [dn | e];
    cbn [trace result final lift fst snd app].
  2: { left. split; [reflexivity | eexists; reflexivity]. }
  right. rewrite trace_bind. unfold get_distro.
  destruct (first_named_fetches_once respond Rpc.get_distros dn w) as [Ht _].
  rewrite Ht.
  destruct (result (first_named respond Rpc.get_distros dn w)) as [d | e];
    [| reflexivity].
  rewrite trace_bind.
  destruct (py_getitem d "arch") as [a | e];
    cbn [trace result final lift fst snd app]; [| reflexivity].
  destruct (py_eq a arch); [| reflexivity].
  rewrite trace_bind.
  destruct (py_getitem profile "name"); reflexivity.
Qed.

Lemma profile_loop_trace (arch : pyval) (profiles : list pyval) (w : W) :
  exists k,
    (k <= List.length profiles)%nat /\
    trace (for_in profiles (profile_turn respond arch) w)
    = repeat (Called Rpc.get_distros) k.
Proof.
  revert w. induction profiles as [| profile rest IH]; intros w.
  - exists 0%nat. split; [lia | reflexivity].
  - pose proof (profile_turn_trace arch profile w) as Hturn.
    destruct (profile_turn respond arch profile w) as [[[[v |] | e] w1] t1] eqn:E;
      unfold trace, result in Hturn; simpl in Hturn.
    + rewrite (for_in_return _ _ _ _ _ _ _ E).
      destruct Hturn as [[_ [e He]] | Ht]; [discriminate |]. subst t1.
      exists 1%nat. split; [simpl; lia | reflexivity].
    + rewrite (for_in_next _ _ _ _ _ _ E).
      destruct Hturn as [[_ [e He]] | Ht]; [discriminate |]. subst t1.
      destruct (IH w1) as (k & Hk & Hrest).
      exists (S k). split; [simpl; lia |].
      unfold trace in *. simpl. now rewrite Hrest.
    + rewrite (for_in_raise _ _ _ _ _ _ _ E).
      destruct Hturn as [[Ht _] | Ht]; subst t1.
      * exists 0%nat. split; [lia | reflexivity].
      * exists 1%nat. split; [simpl; lia | reflexivity].
Qed.

(** The calls of [get_default_profile_name]: the fetch of the profiles,
    then fetches of the distros. *)
Lemma default_profile_trace (arch : pyval) (w : W) :
  exists k,
    trace (get_default_profile_name respond arch w)
    = Called Rpc.get_profiles :: repeat (Called Rpc.get_distros) k /\
    (forall profiles w1,
        respond Rpc.get_profiles w = (Return (PList profiles), w1) ->
        (k <= List.length profiles)%nat).
Proof.
  unfold get_default_profile_name. unfold bind at 1. unfold rpc.
  destruct (respond Rpc.get_profiles w) as [[collection | e] w1].
  2: { exists 0%nat. split; [reflexivity | discriminate]. }
  unfold bind at 1. unfold lift at 1.
  destruct (py_iter collection) as [profiles | e] eqn:Eiter.
  2: { exists 0%nat. split; [reflexivity |].
       intros profiles w2 H. injection H as -> _. discriminate. }
  destruct (profile_loop_trace arch profiles w1) as (k & Hk & Hloop).
  exists k. split.
  - unfold bind at 1. unfold trace in *.
    destruct (for_in profiles (profile_turn respond arch) w1)
      as [[[[n |] | e] w2] t2]; simpl in *; subst t2;
      rewrite ?app_nil_r; reflexivity.
  - intros profiles' w2 H. injection H as -> _.
    simpl in Eiter. injection Eiter as <-. exact Hk.
Qed.

Lemma reads_are_reads (k : nat) :
  forallb is_read (Called Rpc.get_profiles :: repeat (Called Rpc.get_distros) k) = true.
Proof. simpl. induction k; simpl; auto. Qed.

(** The scan returns the name of the first profile that serves the
    architecture, whatever follows it. *)
Lemma profile_loop_first_match (w : W) (distros : list pyval)
      (arch profile n : pyval) (before after : list pyval) :
  respond Rpc.get_distros w = (Return (PList distros), w) ->
  forallb has_name distros = true ->
  forallb (passed_over distros arch) before = true ->
  serves distros arch profile = true ->
  py_getitem profile "name" = Return n ->
  exists t,
    for_in (before ++ profile :: after) (profile_turn respond arch) w
    = (Return (Some n), w, t).
Proof.
  intros Hdistros Hnames Hbefore Hserves Hname.
  induction before as [| p rest IH].
  - unfold serves in Hserves.
    destruct (distro_arch distros profile) as [a |] eqn:Ea; [| discriminate].
    destruct (profile_turn_resolved respond w distros Hdistros arch profile a Hnames Ea)
      as (t1 & Hturn).
    rewrite Hserves, Hname in Hturn. simpl app.
    rewrite (for_in_return _ _ _ _ _ _ _ Hturn). eexists; reflexivity.
  - simpl in Hbefore. apply andb_prop in Hbefore as [Hhead Hrest].
    unfold passed_over in Hhead.
    destruct (distro_arch distros p) as [a |] eqn:Ea; [| discriminate].
    destruct (profile_turn_resolved respond w distros Hdistros arch p a Hnames Ea)
      as (t1 & Hturn).
    apply negb_true_iff in Hhead. rewrite Hhead in Hturn.
    destruct (IH Hrest) as (t2 & Hloop). simpl app.
    rewrite (for_in_next _ _ _ _ _ _ Hturn). rewrite Hloop.
    eexists; reflexivity.
Qed.

End ProfileScan.



(** X8: [get_default_profile_name] stops at the first profile whose distro
    has the architecture: it returns that profile's name whatever comes
    after it in the catalog, a profile with a missing distro included. *)
Theorem get_default_profile_name_stops_at_first_match
  (W : Type) (respond : Rpc.call -> W -> outcome pyval * W) (w w1 : W)
  (before after distros : list pyval) (profile arch n : pyval) :
  respond Rpc.get_profiles w = (Return (PList (before ++ profile :: after)), w1) ->
  respond Rpc.get_distros w1 = (Return (PList distros), w1) ->
  forallb has_name distros = true ->
  forallb (passed_over distros arch) before = true ->
  serves distros arch profile = true ->
  py_getitem profile "name" = Return n ->
  result (get_default_profile_name respond arch w) = Return n.
Proof.
  intros Hprofiles Hdistros Hnames Hbefore Hserves Hname.
  destruct (profile_loop_first_match respond w1 distros arch profile n before after
              Hdistros Hnames Hbefore Hserves Hname) as (t & Hloop).
  unfold get_default_profile_name.
  rewrite (bind_return _ _ _ _ _ _ (rpc_run _ _ _ _ _ Hprofiles)).
  unfold result. simpl.
  unfold bind at 1. unfold lift at 1.
  unfold bind at 1. rewrite Hloop. reflexivity.
Qed.

Lemma get_default_profile_name_stops_at_first_match_witness :
  result (get_default_profile_name Remote.respond (PStr "aarch64")
            {| Remote.systems := [];
               Remote.profiles :=
                 Remote.profiles Sample.lab
                 ++ [Sample.str_dict [("name", PStr "p0"); ("distro", PStr "gone")]];
               Remote.distros := Remote.distros Sample.lab;
               Remote.handles := [];
               Remote.session := PStr "tok" |})
  = Return (PStr "p2").
Proof.
  eapply (get_default_profile_name_stops_at_first_match Remote.state Remote.respond
           _ _
           [Sample.str_dict [("name", PStr "p1"); ("distro", PStr "x86")]]
           [Sample.str_dict [("name", PStr "p0"); ("distro", PStr "gone")]]
           (Remote.distros Sample.lab)
           (Sample.str_dict [("name", PStr "p2"); ("distro", PStr "arm")])
           (PStr "aarch64") (PStr "p2"));
    reflexivity.
Defined.

(** ** Purge, further *)

Lemma removal_loop_failure
  (W : Type) (respond : Rpc.call -> W -> outcome pyval * W)
  (self : CobblerAction) (ok : W -> Prop)
  (before after : list pyval) (name : pyval) (e : exn) :
  (forall n w, ok w -> In n before ->
     exists v w', respond (Rpc.remove_system n (token self)) w = (Return v, w') /\ ok w') ->
  (forall w, ok w ->
     exists w', respond (Rpc.remove_system name (token self)) w = (Raise e, w')) ->
  forall w, ok w ->
    exists w',
      for_in (before ++ name :: after) (purge_turn respond self) w
      = (Raise e, w', map (removal self) (before ++ [name])).
Proof.
  intros Hanswer Hfail. induction before as [| n rest IH]; intros w Hok.
  - destruct (Hfail w Hok) as (w' & Hcall). exists w'. simpl app.
    rewrite (for_in_raise _ _ _ _ w' [removal self name] e); [reflexivity |].
    unfold purge_turn.
    now rewrite (bind_raise _ _ _ _ _ _ (rpc_run _ _ _ _ _ Hcall)).
  - destruct (Hanswer n w Hok (or_introl eq_refl)) as (v & w1 & Hcall & Hok1).
    assert (Hrest : forall n' w', ok w' -> In n' rest ->
              exists v' w'', respond (Rpc.remove_system n' (token self)) w' = (Return v', w'')
                             /\ ok w'').
    { intros n' w' Hok' Hin. apply Hanswer; [assumption | now right]. }
    destruct (IH Hrest w1 Hok1) as (w2 & Hloop). exists w2. simpl app.
    rewrite (for_in_next _ _ _ _ _ _ (purge_turn_run respond self _ _ _ _ Hcall)).
    rewrite Hloop. reflexivity.
Qed.

(** X9: [purge_systems] is not shielded from a failing removal: when the
    removal of one name raises, [purge_systems] raises that exception, the
    names before it have been removed, and the names after it receive no
    call. *)
Theorem purge_systems_stops_at_failure
  (W : Type) (respond : Rpc.call -> W -> outcome pyval * W)
  (self : CobblerAction) (ok : W -> Prop) (w : W)
  (before after : list pyval) (name : pyval) (e : exn) :
  result (system_names respond w) = Return (before ++ name :: after) ->
  ok (final (system_names respond w)) ->
  (forall n w', ok w' -> In n before ->
     exists v w'',
       respond (Rpc.remove_system n (token self)) w' = (Return v, w'') /\ ok w'') ->
  (forall w', ok w' ->
     exists w'', respond (Rpc.remove_system name (token self)) w' = (Raise e, w'')) ->
  let run := purge_systems respond self w in
  result run = Raise e /\
  trace run = Called Rpc.get_systems :: map (removal self) (before ++ [name]) /\
  List.length (filter is_remove (trace run)) = S (List.length before).
Proof.
  intros Hnames Hok Hanswer Hfail run.
  rewrite (system_names_run respond w) in Hnames, Hok.
  unfold result, final in Hnames, Hok. simpl in Hnames, Hok.
  destruct (removal_loop_failure W respond self ok before after name e
              Hanswer Hfail _ Hok) as (w2 & Hloop).
  assert (Hrun : run = (Raise e, w2,
                        Called Rpc.get_systems :: map (removal self) (before ++ [name]))).
  { subst run. unfold purge_systems.
    unfold bind at 1. rewrite (system_names_run respond w). rewrite Hnames.
    unfold bind at 1. rewrite Hloop. reflexivity. }
  rewrite Hrun. unfold result, trace. simpl.
  rewrite removal_is_remove, length_map, length_app. simpl.
  repeat split. lia.
Qed.

Lemma purge_systems_stops_at_failure_witness :
  let stale := {| server_url := PNone; user := PNone; password := PNone;
                  token := PStr "stale" |} in
  result (purge_systems Remote.respond stale Sample.lab_with_hosts)
    = Raise Remote.bad_token /\
  trace (purge_systems Remote.respond stale Sample.lab_with_hosts)
    = [Called Rpc.get_systems; Called (Rpc.remove_system (PStr "h1") (PStr "stale"))].
Proof.
  intros stale.
  pose proof (purge_systems_stops_at_failure Remote.state Remote.respond stale
                (fun s => Remote.session s = PStr "tok") Sample.lab_with_hosts
                [] [PStr "h2"] (PStr "h1") Remote.bad_token) as H.
  simpl in H.
  destruct H as (Hr & Ht & _).
  - reflexivity.
  - reflexivity.
  - intros n s _ [].
  - intros s Hs. exists s. unfold Remote.respond. simpl. rewrite Hs. reflexivity.
  - split; assumption.
Defined.

(** ** Boot arguments, further *)

Lemma segments_app (a b : list (string * string)) :
  segments (a ++ b) = (segments a ++ segments b)%string.
Proof.
  induction a as [| arg rest IH]; [reflexivity |].
  change (segments ((arg :: rest) ++ b))
    with (segment arg ++ segments (rest ++ b))%string.
  change (segments (arg :: rest)) with (segment arg ++ segments rest)%string.
  rewrite IH. symmetry. apply string_app_assoc.
Qed.

(** X10: the string [set_system_args] builds for two lists of pairs put
    end to end is the string for the first followed by the string for the
    second; it is empty for no pair at all, and otherwise begins with a
    space. *)
Theorem arg_str_of_app (a b : list (string * string)) :
  arg_str_of (a ++ b) = (arg_str_of a ++ arg_str_of b)%string /\
  arg_str_of [] = ""%string /\
  (a = [] \/ exists rest, arg_str_of a = String " "%char rest).
Proof.
  rewrite !arg_str_of_segments. split; [apply segments_app |].
  split; [reflexivity |].
  destruct a as [| arg rest]; [now left | right].
  simpl. unfold segment. simpl.
  eexists; reflexivity.
Qed.

(** ** The workflows that set one field *)

Section OneField.

Context {W : Type}.
Variable respond : Rpc.call -> W -> outcome pyval * W.
Variable self : CobblerAction.


End OneField.



(** ** The create workflow, further *)

Lemma filter_reads (p : event -> bool) (t : list event) :
  (forall ev, is_read ev = true -> p ev = false) ->
  forallb is_read t = true ->
  filter p t = [].
Proof.
  intros Hp. induction t as [| ev rest IH]; simpl; [reflexivity |].
  intros H. apply andb_prop in H as [Hev Hrest].
  rewrite (Hp ev Hev). auto.
Qed.

Lemma read_not_save (ev : event) : is_read ev = true -> is_save ev = false.
Proof. destruct ev as [[] |]; simpl; congruence. Qed.

Lemma read_not_modify (ev : event) : is_read ev = true -> is_modify ev = false.
Proof. destruct ev as [[] |]; simpl; congruence. Qed.

Section CreateWorkflowRuns.

Context {W : Type}.
Variable respond : Rpc.call -> W -> outcome pyval * W.
Variable json_loads : string -> outcome pyval.
Variable self : CobblerAction.

Lemma bind_run_eq {A B : Type} (m : M W A) (f : A -> M W B)
      (w w1 w2 : W) (a : A) (r : outcome B) (t1 t2 : list event) :
  m w = (Return a, w1, t1) ->
  f a w1 = (r, w2, t2) ->
  bind m f w = (r, w2, t1 ++ t2).
Proof. intros Hm Hf. unfold bind. rewrite Hm, Hf. reflexivity. Qed.

Lemma bind_lift_return {A B : Type} (a : A) (f : A -> M W B) (w : W) :
  bind (lift (Return a)) f w = f a w.
Proof. unfold bind, lift. destruct (f a w) as [[r w2] t2]. reflexivity. Qed.

Lemma trace_rpc (c : Rpc.call) (w : W) : trace (rpc respond c w) = [Called c].
Proof. unfold rpc, trace. destruct (respond c w). reflexivity. Qed.

(** A step that calls no [save_system], followed by steps that fail
    unsaved whatever it returns, fails unsaved. *)
Lemma fails_unsaved_bind {A B : Type} (m : M W A) (f : A -> M W B) (w : W) :
  filter is_save (trace (m w)) = [] ->
  (forall a w1, result (m w) = Return a -> fails_unsaved (f a w1)) \/
  (exists e, result (m w) = Raise e) ->
  fails_unsaved (bind m f w).
Proof.
  intros Hm Hrest. unfold fails_unsaved.
  rewrite trace_bind, result_bind, filter_app, Hm.
  destruct (result (m w)) as [a | e] eqn:Er.
  - destruct Hrest as [Hrest | [e He]]; [| discriminate].
    destruct (Hrest a (final (m w)) eq_refl) as [Ht Hr]. simpl. split; assumption.
  - split; [reflexivity | eexists; reflexivity].
Qed.

Lemma fails_unsaved_after {A B : Type} (m : M W A) (f : A -> M W B) (w : W) :
  filter is_save (trace (m w)) = [] ->
  (forall a w1, result (m w) = Return a -> fails_unsaved (f a w1)) ->
  fails_unsaved (bind m f w).
Proof. intros Hm Hrest. apply fails_unsaved_bind; [assumption | now left]. Qed.

Lemma default_profile_unsaved (arch : pyval) (w : W) :
  filter is_save (trace (get_default_profile_name respond arch w)) = [].
Proof.
  destruct (default_profile_trace respond arch w) as (k & Ht & _). rewrite Ht.
  apply filter_reads; [exact read_not_save | apply reads_are_reads].
Qed.

(** The profile scan at a state where the catalog reads the same at every
    fetch. *)
Lemma default_profile_static_run (w : W) (profiles distros : list pyval) (arch : pyval) :
  respond Rpc.get_profiles w = (Return (PList profiles), w) ->
  respond Rpc.get_distros w = (Return (PList distros), w) ->
  referential_integrity profiles distros = true ->
  exists t,
    forallb is_read t = true /\
    get_default_profile_name respond arch w
    = (Return (resolve_default_profile profiles distros arch), w, t).
Proof.
  intros Hprofiles Hdistros Hintegrity.
  unfold referential_integrity in Hintegrity.
  apply andb_prop in Hintegrity as [Hnames Hres].
  destruct (profile_loop_resolved respond w distros Hdistros arch profiles Hnames Hres)
    as (t & Hloop).
  destruct (default_profile_trace respond arch w) as (k & Ht & _).
  assert (Hrun : exists t',
             get_default_profile_name respond arch w
             = (Return (resolve_default_profile profiles distros arch), w, t')).
  { unfold resolve_default_profile, get_default_profile_name.
    destruct (find (serves distros arch) profiles) as [p |];
      [destruct (py_getitem p "name") |];
      eexists;
      (eapply bind_run_eq; [exact (rpc_run _ _ _ _ _ Hprofiles) |]);
      (eapply bind_run_eq; [reflexivity |]);
      (eapply bind_run_eq; [exact Hloop |]);
      reflexivity. }
  destruct Hrun as (t' & Hrun). exists t'. split; [| exact Hrun].
  rewrite Hrun in Ht. unfold trace in Ht. simpl in Ht. rewrite Ht.
  apply reads_are_reads.
Qed.

End CreateWorkflowRuns.

(** X13: a text that [json.loads] rejects costs no remote call at all:
    [add_system] returns the decoder's exception at once, before
    [new_system], and the remote is left untouched. *)
Theorem add_system_bad_json_makes_no_call
  (W : Type) (respond : Rpc.call -> W -> outcome pyval * W)
  (json_loads : string -> outcome pyval) (self : CobblerAction)
  (text : string) (w : W) (e : exn) :
  json_loads text = Raise e ->
  add_system respond json_loads self text w = (Return (Some e), w, []).
Proof.
  intros Hloads.
  unfold add_system, try_except, add_system_try, bind, lift.
  rewrite Hloads. reflexivity.
Qed.

Lemma add_system_bad_json_makes_no_call_witness :
  add_system Remote.respond Sample.loads Sample.client "<html>" Sample.lab
  = (Return (Some JSONDecodeError), Sample.lab, []).
Proof.
  apply (add_system_bad_json_makes_no_call Remote.state Remote.respond Sample.loads
           Sample.client "<html>" Sample.lab JSONDecodeError).
  reflexivity.
Defined.

(** X14: a payload that lacks [arch] or [host_ports] and does not name its
    host with a string either gets no warning: building the warning
    fails, and [add_system] returns that exception (KeyError when
    [server_name] is missing, TypeError when it is not a string) after its
    one call to [new_system]. *)
Theorem add_system_rejection_needs_server_name
  (W : Type) (respond : Rpc.call -> W -> outcome pyval * W)
  (json_loads : string -> outcome pyval) (self : CobblerAction)
  (text : string) (w w1 : W) (kvs : list (pyval * pyval)) (handle : pyval) :
  json_loads text = Return (PDict kvs) ->
  missing_required kvs = true ->
  (forall host, dict_get kvs (PStr "server_name") <> Some (PStr host)) ->
  respond (Rpc.new_system (token self)) w = (Return handle, w1) ->
  let run := add_system respond json_loads self text w in
  result run = Return (Some (match dict_get kvs (PStr "server_name") with
                             | Some _ => TypeError
                             | None => KeyError
                             end)) /\
  trace run = [Called (Rpc.new_system (token self))] /\
  final run = w1.
Proof.
  intros Hloads Hmissing Hname Hnew run. subst run.
  assert (Hboth :
            (if match dict_get kvs (PStr "arch") with Some _ => true | None => false end
             then lift (py_contains "host_ports" (PDict kvs))
             else ret false) w1 = (Return false, w1, [])).
  { unfold missing_required in Hmissing.
    destruct (dict_get kvs (PStr "arch")); [| reflexivity].
    unfold lift. rewrite contains_dict_get.
    destruct (dict_get kvs (PStr "host_ports")); [discriminate | reflexivity]. }
  assert (Hrun : add_system_try respond json_loads self text w
                 = (Raise (match dict_get kvs (PStr "server_name") with
                           | Some _ => TypeError
                           | None => KeyError
                           end), w1, [Called (Rpc.new_system (token self))])).
  { unfold add_system_try.
    unfold bind at 1. unfold lift at 1. rewrite Hloads.
    unfold bind at 1. rewrite (rpc_run _ _ _ _ _ Hnew).
    unfold bind at 1. unfold lift at 1. rewrite contains_dict_get.
    unfold bind at 1. rewrite Hboth. simpl negb. cbv iota.
    unfold bind, lift, print, ret, py_getitem.
    destruct (dict_get kvs (PStr "server_name")) as [v |]; [| reflexivity].
    destruct v; try reflexivity.
    exfalso. eapply Hname. reflexivity. }
  rewrite add_system_run, Hrun. repeat split.
Qed.

Lemma add_system_rejection_needs_server_name_witness :
  let loads := fun _ : string =>
                 Return (Sample.str_dict [("arch", PStr "x86_64"); ("server_name", PInt 7)]) in
  result (add_system Remote.respond loads Sample.client "h7.json" Sample.lab)
    = Return (Some TypeError) /\
  trace (add_system Remote.respond loads Sample.client "h7.json" Sample.lab)
    = [Called (Rpc.new_system (PStr "tok"))].
Proof.
  intros loads.
  pose proof (add_system_rejection_needs_server_name Remote.state Remote.respond loads
                Sample.client "h7.json" Sample.lab
                (Remote.with_handles Sample.lab [[]])
                [(PStr "arch", PStr "x86_64"); (PStr "server_name", PInt 7)]
                (PInt 0)) as H.
  simpl in H.
  destruct H as (Hr & Ht & _).
  - reflexivity.
  - reflexivity.
  - intros host. discriminate.
  - reflexivity.
  - split; assumption.
Defined.

(** The [try] block of [add_system], on a payload that has [arch] and a
    [host_ports] other than the empty dictionary, ends with an exception
    before any [save_system]. *)
Lemma add_system_try_ports_unsaved
  (W : Type) (respond : Rpc.call -> W -> outcome pyval * W)
  (json_loads : string -> outcome pyval) (self : CobblerAction)
  (text : string) (w : W) (kvs : list (pyval * pyval)) (arch ports : pyval) :
  json_loads text = Return (PDict kvs) ->
  dict_get kvs (PStr "arch") = Some arch ->
  dict_get kvs (PStr "host_ports") = Some ports ->
  ports <> PDict [] ->
  fails_unsaved (add_system_try respond json_loads self text w).
Proof.
  intros Hloads Harch Hports Hsome. unfold add_system_try.
  apply fails_unsaved_after; [reflexivity |].
  intros def w0 Hdef. unfold lift, result in Hdef. cbn [fst snd] in Hdef.
  rewrite Hloads in Hdef. injection Hdef as <-.
  apply fails_unsaved_after; [now rewrite trace_rpc |].
  intros sys_id w1 _.
  apply fails_unsaved_after; [reflexivity |].
  intros has_arch w2 Hhas. unfold lift, result in Hhas. cbn [fst snd] in Hhas.
  rewrite contains_dict_get, Harch in Hhas. injection Hhas as <-.
  apply fails_unsaved_after; [reflexivity |].
  intros has_both w3 Hboth. unfold lift, result in Hboth. cbn [fst snd] in Hboth.
  rewrite contains_dict_get, Hports in Hboth. injection Hboth as <-.
  simpl negb. cbv iota.
  apply fails_unsaved_after; [reflexivity |]. intros a w4 _.
  apply fails_unsaved_after; [reflexivity |]. intros name1 w5 _.
  apply fails_unsaved_after; [now rewrite trace_rpc |]. intros r1 w6 _.
  apply fails_unsaved_after; [reflexivity |]. intros name2 w7 _.
  apply fails_unsaved_after; [now rewrite trace_rpc |]. intros r2 w8 _.
  apply fails_unsaved_after; [apply default_profile_unsaved |]. intros profile w9 _.
  apply fails_unsaved_after; [now rewrite trace_rpc |]. intros r3 w10 _.
  apply fails_unsaved_after; [reflexivity |].
  intros host_ports w11 Hhp. unfold lift, result, py_getitem in Hhp. cbn [fst snd] in Hhp.
  rewrite Hports in Hhp. injection Hhp as <-.
  apply fails_unsaved_bind; [reflexivity |].
  destruct ports as [| | | | | | [| port rest]];
    try (right; eexists; reflexivity).
  - contradiction.
  - left. intros items w12 Hitems. unfold lift, result in Hitems.
    cbn [fst snd py_items] in Hitems. injection Hitems as <-.
    apply fails_unsaved_bind; [reflexivity |].
    right. eexists. reflexivity.
Qed.

(** X15: [add_system] saves a host only if its [host_ports] is the empty
    dictionary.  For every payload with [arch] and any other
    [host_ports] (a dictionary with a port, or a value that is not a
    dictionary), and whatever the remote answers, it returns an
    exception, never None, and never calls [save_system]. *)
Theorem add_system_with_ports_never_saves
  (W : Type) (respond : Rpc.call -> W -> outcome pyval * W)
  (json_loads : string -> outcome pyval) (self : CobblerAction)
  (text : string) (w : W) (kvs : list (pyval * pyval)) (arch ports : pyval) :
  json_loads text = Return (PDict kvs) ->
  dict_get kvs (PStr "arch") = Some arch ->
  dict_get kvs (PStr "host_ports") = Some ports ->
  ports <> PDict [] ->
  let run := add_system respond json_loads self text w in
  (exists e, result run = Return (Some e)) /\
  filter is_save (trace run) = [].
Proof.
  intros Hloads Harch Hports Hsome run. subst run.
  destruct (add_system_try_ports_unsaved W respond json_loads self text w kvs
              arch ports Hloads Harch Hports Hsome) as [Hsave [e He]].
  rewrite add_system_run. unfold result at 1, trace at 1. simpl.
  rewrite He. split; [eexists; reflexivity | exact Hsave].
Qed.

Lemma add_system_with_ports_never_saves_witness :
  (exists e,
     result (add_system Remote.respond Sample.loads Sample.client "h1.json" Sample.lab)
     = Return (Some e)) /\
  filter is_save
    (trace (add_system Remote.respond Sample.loads Sample.client "h1.json" Sample.lab))
  = [].
Proof.
  eapply (add_system_with_ports_never_saves Remote.state Remote.respond Sample.loads
            Sample.client "h1.json" Sample.lab);
    try reflexivity.
  discriminate.
Defined.

(** X16: for a payload with every field and no port at all, on a remote
    that answers the calls on the handle and whose catalog resolves,
    [add_system] returns None after staging nine fields, in this order and
    with these values: name and hostname (the server name), profile (the
    default profile of the architecture, ['no-profile'] included),
    interfaces (empty), power_address, power_user, power_pass (the IPMI
    fields), power_mode (['ipmitool']) and netboot_enabled (True); it
    then saves once, and the save is its last call. *)
Theorem add_system_portless_commits
  (W : Type) (respond : Rpc.call -> W -> outcome pyval * W)
  (json_loads : string -> outcome pyval) (self : CobblerAction)
  (text : string) (w w1 w3 w11 : W) (kvs : list (pyval * pyval))
  (host arch fqdn usr pass handle : pyval)
  (profiles distros : list pyval) :
  json_loads text = Return (PDict kvs) ->
  dict_get kvs (PStr "server_name") = Some host ->
  dict_get kvs (PStr "arch") = Some arch ->
  dict_get kvs (PStr "host_ports") = Some (PDict []) ->
  dict_get kvs (PStr "ipmi_fqdn") = Some fqdn ->
  dict_get kvs (PStr "ipmi_user") = Some usr ->
  dict_get kvs (PStr "ipmi_pass") = Some pass ->
  respond (Rpc.new_system (token self)) w = (Return handle, w1) ->
  answered respond
    [Rpc.modify_system handle "name" host (token self);
     Rpc.modify_system handle "hostname" host (token self)] w1 = Some w3 ->
  respond Rpc.get_profiles w3 = (Return (PList profiles), w3) ->
  respond Rpc.get_distros w3 = (Return (PList distros), w3) ->
  referential_integrity profiles distros = true ->
  answered respond
    [Rpc.modify_system handle "profile"
       (resolve_default_profile profiles distros arch) (token self);
     Rpc.modify_system handle "interfaces" (PDict []) (token self);
     Rpc.modify_system handle "power_address" fqdn (token self);
     Rpc.modify_system handle "power_user" usr (token self);
     Rpc.modify_system handle "power_pass" pass (token self);
     Rpc.modify_system handle "power_mode" (PStr "ipmitool") (token self);
     Rpc.modify_system handle "netboot_enabled" (PBool true) (token self);
     Rpc.save_system handle (token self)] w3 = Some w11 ->
  let run := add_system respond json_loads self text w in
  result run = Return None /\
  final run = w11 /\
  filter is_modify (trace run)
  = map (fun fv => modification self handle (fst fv) (snd fv))
      (staged_fields host (resolve_default_profile profiles distros arch) fqdn usr pass) /\
  filter is_save (trace run) = [saving self handle] /\
  exists t, trace run = Called (Rpc.new_system (token self)) :: t ++ [saving self handle].
Proof.
  intros Hloads Hhost Harch Hports Hfqdn Husr Hpass Hnew Hfirst Hgp Hgd Hint Hrest run.
  destruct (default_profile_static_run respond w3 profiles distros arch Hgp Hgd Hint)
    as (tp & Hreads & Hprofile).
  set (profile := resolve_default_profile profiles distros arch) in *.
  simpl in Hfirst.
  destruct (respond (Rpc.modify_system handle "name" host (token self)) w1)
    as [[v1 | e1] w2] eqn:Hc1; [| discriminate].
  destruct (respond (Rpc.modify_system handle "hostname" host (token self)) w2)
    as [[v2 | e2] w3'] eqn:Hc2; [| discriminate].
  injection Hfirst as ->.
  simpl in Hrest.
  destruct (respond (Rpc.modify_system handle "profile" profile (token self)) w3)
    as [[v3 | e3] w4] eqn:Hc3; [| discriminate].
  destruct (respond (Rpc.modify_system handle "interfaces" (PDict []) (token self)) w4)
    as [[v4 | e4] w5] eqn:Hc4; [| discriminate].
  destruct (respond (Rpc.modify_system handle "power_address" fqdn (token self)) w5)
    as [[v5 | e5] w6] eqn:Hc5; [| discriminate].
  destruct (respond (Rpc.modify_system handle "power_user" usr (token self)) w6)
    as [[v6 | e6] w7] eqn:Hc6; [| discriminate].
  destruct (respond (Rpc.modify_system handle "power_pass" pass (token self)) w7)
    as [[v7 | e7] w8] eqn:Hc7; [| discriminate].
  destruct (respond (Rpc.modify_system handle "power_mode" (PStr "ipmitool")
                       (token self)) w8)
    as [[v8 | e8] w9] eqn:Hc8; [| discriminate].
  destruct (respond (Rpc.modify_system handle "netboot_enabled" (PBool true)
                       (token self)) w9)
    as [[v9 | e9] w10] eqn:Hc9; [| discriminate].
  destruct (respond (Rpc.save_system handle (token self)) w10)
    as [[v10 | e10] w11'] eqn:Hcs; [| discriminate].
  injection Hrest as ->.
  assert (Hrun : exists t,
             add_system_try respond json_loads self text w = (Return None, w11, t) /\
             filter is_modify t
             = map (fun fv => modification self handle (fst fv) (snd fv))
                 (staged_fields host profile fqdn usr pass) /\
             filter is_save t = [saving self handle] /\
             exists t0, t = Called (Rpc.new_system (token self)) :: t0 ++ [saving self handle]).
  { eexists. split.
    - unfold add_system_try.
      eapply bind_run_eq; [unfold lift; rewrite Hloads; reflexivity |].
      eapply bind_run_eq; [exact (rpc_run _ _ _ _ _ Hnew) |].
      eapply bind_run_eq;
        [unfold lift; rewrite contains_dict_get, Harch; reflexivity |].
      cbv beta iota.
      eapply bind_run_eq;
        [unfold lift; rewrite contains_dict_get, Hports; reflexivity |].
      simpl negb. cbv beta iota.
      eapply bind_run_eq; [unfold lift, py_getitem; rewrite Harch; reflexivity |].
      eapply bind_run_eq; [unfold lift, py_getitem; rewrite Hhost; reflexivity |].
      eapply bind_run_eq; [exact (rpc_run _ _ _ _ _ Hc1) |].
      eapply bind_run_eq; [unfold lift, py_getitem; rewrite Hhost; reflexivity |].
      eapply bind_run_eq; [exact (rpc_run _ _ _ _ _ Hc2) |].
      eapply bind_run_eq; [exact Hprofile |].
      eapply bind_run_eq; [exact (rpc_run _ _ _ _ _ Hc3) |].
      eapply bind_run_eq; [unfold lift, py_getitem; rewrite Hports; reflexivity |].
      eapply bind_run_eq; [reflexivity |].
      eapply bind_run_eq; [reflexivity |].
      eapply bind_run_eq; [exact (rpc_run _ _ _ _ _ Hc4) |].
      eapply bind_run_eq; [unfold lift, py_getitem; rewrite Hfqdn; reflexivity |].
      eapply bind_run_eq; [exact (rpc_run _ _ _ _ _ Hc5) |].
      eapply bind_run_eq; [unfold lift, py_getitem; rewrite Husr; reflexivity |].
      eapply bind_run_eq; [exact (rpc_run _ _ _ _ _ Hc6) |].
      eapply bind_run_eq; [unfold lift, py_getitem; rewrite Hpass; reflexivity |].
      eapply bind_run_eq; [exact (rpc_run _ _ _ _ _ Hc7) |].
      eapply bind_run_eq; [exact (rpc_run _ _ _ _ _ Hc8) |].
      eapply bind_run_eq; [exact (rpc_run _ _ _ _ _ Hc9) |].
      eapply bind_run_eq; [exact (rpc_run _ _ _ _ _ Hcs) |].
      reflexivity.
    - simpl.
      rewrite !filter_app.
      rewrite (filter_reads is_modify tp read_not_modify Hreads).
      rewrite (filter_reads is_save tp read_not_save Hreads).
      simpl. repeat split.
      exists (modification self handle "name" host
              :: modification self handle "hostname" host
              :: tp ++ [modification self handle "profile" profile;
                        modification self handle "interfaces" (PDict []);
                        modification self handle "power_address" fqdn;
                        modification self handle "power_user" usr;
                        modification self handle "power_pass" pass;
                        modification self handle "power_mode" (PStr "ipmitool");
                        modification self handle "netboot_enabled" (PBool true)]).
      simpl. rewrite <- app_assoc. reflexivity. }
  destruct Hrun as (t & Htry & Hm & Hs & Hlast).
  subst run. rewrite add_system_run, Htry.
  unfold result, trace, final. simpl. repeat split; assumption.
Qed.

Lemma add_system_portless_commits_witness :
  let run := add_system Remote.respond Sample.loads Sample.client
               "h1-portless.json" Sample.lab in
  result run = Return None /\
  final run
  = Remote.with_systems (Remote.with_handles Sample.lab (Remote.handles (final run)))
      [Sample.str_dict
         (staged_fields (PStr "h1") (PStr "p1") (PStr "bmc1") (PStr "u") (PStr "p"))] /\
  filter is_modify (trace run)
  = map (fun fv => modification Sample.client (PInt 0) (fst fv) (snd fv))
      (staged_fields (PStr "h1") (PStr "p1") (PStr "bmc1") (PStr "u") (PStr "p")) /\
  filter is_save (trace run) = [saving Sample.client (PInt 0)] /\
  exists t,
    trace run = Called (Rpc.new_system (PStr "tok")) :: t ++ [saving Sample.client (PInt 0)].
Proof.
  apply (add_system_portless_commits Remote.state Remote.respond Sample.loads
           Sample.client "h1-portless.json" Sample.lab
           (Remote.with_handles Sample.lab [[]])
           (Remote.with_handles Sample.lab
              [[(PStr "name", PStr "h1"); (PStr "hostname", PStr "h1")]])
           (Remote.with_systems
              (Remote.with_handles Sample.lab
                 (Remote.handles
                    (final (add_system Remote.respond Sample.loads Sample.client
                              "h1-portless.json" Sample.lab))))
              [Sample.str_dict
                 (staged_fields (PStr "h1") (PStr "p1") (PStr "bmc1") (PStr "u")
                    (PStr "p"))])
           [(PStr "server_name", PStr "h1"); (PStr "arch", PStr "x86_64");
            (PStr "host_ports", PDict []); (PStr "ipmi_fqdn", PStr "bmc1");
            (PStr "ipmi_user", PStr "u"); (PStr "ipmi_pass", PStr "p")]
           (PStr "h1") (PStr "x86_64") (PStr "bmc1") (PStr "u") (PStr "p") (PInt 0)
           (Remote.profiles Sample.lab) (Remote.distros Sample.lab));
    reflexivity.
Defined.


(** X18: whatever a payload decodes to, a rejected or a malformed one
    included, the first thing [add_system] does with it is to open a
    handle: its trace begins with [new_system], and when that call fails
    its exception is what [add_system] returns, with no further call. *)
Theorem add_system_opens_handle_first
  (W : Type) (respond : Rpc.call -> W -> outcome pyval * W)
  (json_loads : string -> outcome pyval) (self : CobblerAction)
  (text : string) (w : W) (def : pyval) :
  json_loads text = Return def ->
  let run := add_system respond json_loads self text w in
  (exists t, trace run = Called (Rpc.new_system (token self)) :: t) /\
  match fst (respond (Rpc.new_system (token self)) w) with
  | Return _ => True
  | Raise e =>
      result run = Return (Some e) /\
      trace run = [Called (Rpc.new_system (token self))]
  end.
Proof.
  intros Hloads run. subst run. rewrite add_system_run.
  unfold add_system_try. rewrite Hloads, bind_lift_return.
  match goal with
  | |- context [trace (bind ?m ?f w)] =>
      remember (bind m f w) as block eqn:Eblock;
      assert (Ht : trace block
                   = Called (Rpc.new_system (token self))
                     :: match result (m w) with
                        | Return a => trace (f a (final (m w)))
                        | Raise _ => []
                        end)
        by (rewrite Eblock, trace_bind, trace_rpc; reflexivity);
      assert (Hr : result block
                   = match result (m w) with
                     | Return a => result (f a (final (m w)))
                     | Raise e => Raise e
                     end)
        by (rewrite Eblock, result_bind; reflexivity)
  end.
  clear Eblock. unfold trace, result, final, rpc in *. cbn [fst snd] in *.
  rewrite Ht, Hr.
  destruct (respond (Rpc.new_system (token self)) w) as [[handle | e] w1];
    cbn [fst snd].
  - split; [eexists; reflexivity | exact I].
  - split; [eexists; reflexivity |]. split; reflexivity.
Qed.

Lemma add_system_opens_handle_first_witness :
  exists t,
    trace (add_system Remote.respond Sample.loads Sample.client "h1-legacy.json" Sample.lab)
    = Called (Rpc.new_system (PStr "tok")) :: t.
Proof.
  eapply (add_system_opens_handle_first Remote.state Remote.respond Sample.loads
            Sample.client "h1-legacy.json" Sample.lab).
  reflexivity.
Defined.
